(** * Timo-AI-Funnel: the WhatsApp message pipeline and its rate-limiting queue

    A shallow embedding of
      - [src/config/botConfig.js]              (module [botConfig]),
      - [src/services/databaseService.js]      (module [databaseService]),
      - [src/services/paymentService.js]       (module [paymentService]),
      - [src/services/queueService.js]         (module [queueService]),
      - [src/controllers/messageController.js] (module [messageController]),
    followed by the properties of the message pipeline and of the queue.

    JavaScript promises are modelled in a state-and-exception monad: a
    computation takes the current state and returns either a value or a
    thrown error, together with the state it leaves behind; an [await] is
    a bind.  A run of the pipeline is one such computation: it runs to its
    end without another run in between.  The two points at which the
    queue's drain loop is suspended are explicit in the step function of
    the event loop, so that window ticks and submissions interleave with a
    running drain.

    Runs of the pipeline that overlap are the subject of module
    [Concurrent]: there the functions of the pipeline are promises that are
    suspended at every [await] of an external call, and [interleave]
    resumes the promises of a pool in any order.  A promise that is resumed
    until it has settled with nothing in between does what the computation
    of the monad does (lemmas [run_alone_...]). *)

From stdpp Require Import base gmap strings list sorting.
From Stdlib Require Import ZArith Lia Ascii String.

Local Open Scope string_scope.
Local Open Scope list_scope.
Local Open Scope Z_scope.

(** ** Errors and completions *)

Inductive JsError :=
| PostgrestError (message : string)   (* the [error] member of a supabase response *)
| GenerationError (message : string)  (* thrown by the AI model wrapper *)
| DeliveryError (message : string)    (* thrown by the WhatsApp client *)
| MediaError (message : string)       (* thrown by transcription or image download *)
| ReferenceError (message : string)   (* an identifier that is not in scope *)
| TypeError (message : string).       (* a property read off [null] *)

Definition error_message (e : JsError) : string :=
  match e with
  | PostgrestError m | GenerationError m | DeliveryError m
  | MediaError m | ReferenceError m | TypeError m => m
  end.

Inductive Completion (A : Type) :=
| Return (a : A)
| Throw (e : JsError).
Arguments Return {A} a.
Arguments Throw {A} e.

(** ** The monad *)

Definition M (S A : Type) : Type := S -> Completion A * S.

Definition ret {S A} (a : A) : M S A := fun s => (Return a, s).

Definition bind {S A B} (c : M S A) (k : A -> M S B) : M S B :=
  fun s => match c s with
           | (Return a, s') => k a s'
           | (Throw e, s') => (Throw e, s')
           end.

Definition throw {S A} (e : JsError) : M S A := fun s => (Throw e, s).

(** [try { body } catch (error) { handler error }] *)
Definition try_catch {S A} (body : M S A) (handler : JsError -> M S A) : M S A :=
  fun s => match body s with
           | (Return a, s') => (Return a, s')
           | (Throw e, s') => handler e s'
           end.

Definition gets {S A} (f : S -> A) : M S A := fun s => (Return (f s), s).
Definition modify {S} (f : S -> S) : M S unit := fun s => (Return tt, f s).

(** [Promise.all([a, b])]: both promises are started and both run to their
    end; the result rejects with the error of the first one that rejected.
    The effects of [a] are sequenced before those of [b]. *)
Definition promise_all2 {S A B} (a : M S A) (b : M S B) : M S (A * B) :=
  fun s => match a s with
           | (ra, s1) =>
               match b s1 with
               | (rb, s2) =>
                   match ra, rb with
                   | Return x, Return y => (Return (x, y), s2)
                   | Throw e, _ => (Throw e, s2)
                   | Return _, Throw e => (Throw e, s2)
                   end
               end
           end.

Notation "'let*' x ':=' c 'in' k" := (bind c (fun x => k))
  (at level 10, x pattern, c at level 100, k at level 200).
Notation "c ';;' k" := (bind c (fun _ => k))
  (at level 100, k at level 200, right associativity).

(** ** Promises in flight

    A computation of [M] runs an [async] function from its call to its
    end in one piece.  Where several calls are in flight at once, the
    points at which a function is suspended matter: [Async] is the same
    function with its [await]s of external calls made explicit.  [Await
    call k] is suspended until [call] settles and goes on with [k]; [Sync
    act k] is code that runs without suspension (the logger). *)

Inductive Async (S A : Type) : Type :=
| Settle (r : Completion A)
| Sync {B : Type} (act : M S B) (k : Completion B -> Async S A)
| Await {B : Type} (call : M S B) (k : Completion B -> Async S A).
Arguments Settle {S A} r.
Arguments Sync {S A B} act k.
Arguments Await {S A B} call k.

(** What a promise goes on with once it has settled. *)
Fixpoint on_settle {S A B} (t : Async S A) (k : Completion A -> Async S B) : Async S B :=
  match t with
  | Settle r => k r
  | Sync act k' => Sync act (fun r => on_settle (k' r) k)
  | Await call k' => Await call (fun r => on_settle (k' r) k)
  end.

Definition aret {S A} (a : A) : Async S A := Settle (Return a).
Definition athrow {S A} (e : JsError) : Async S A := Settle (Throw e).
Definition await_ {S A} (call : M S A) : Async S A := Await call Settle.
Definition sync {S A} (act : M S A) : Async S A := Sync act Settle.

Definition abind {S A B} (t : Async S A) (k : A -> Async S B) : Async S B :=
  on_settle t (fun r => match r with
                        | Return a => k a
                        | Throw e => Settle (Throw e)
                        end).

(** [try { body } catch (error) { handler error }] *)
Definition atry_catch {S A} (body : Async S A) (handler : JsError -> Async S A) : Async S A :=
  on_settle body (fun r => match r with
                           | Return a => Settle (Return a)
                           | Throw e => handler e
                           end).

(** [Promise.all([a, b])], the calls of [a] settling before those of [b]. *)
Definition apromise_all2 {S A B} (a : Async S A) (b : Async S B) : Async S (A * B) :=
  on_settle a (fun ra =>
  on_settle b (fun rb =>
    Settle match ra, rb with
           | Return x, Return y => Return (x, y)
           | Throw e, _ => Throw e
           | Return _, Throw e => Throw e
           end)).

Declare Scope async_scope.
Delimit Scope async_scope with async.
Notation "'let*' x ':=' c 'in' k" := (abind c (fun x => k))
  (at level 10, x pattern, c at level 100, k at level 200) : async_scope.
Notation "c ';;' k" := (abind c (fun _ => k))
  (at level 100, k at level 200, right associativity) : async_scope.

(** A promise that no other promise overlaps: every awaited call settles
    as soon as it is made. *)
Fixpoint run_alone {S A} (t : Async S A) (s : S) {struct t} : Completion A * S :=
  match t with
  | Settle r => (r, s)
  | Sync act k => match act s with (r, s1) => run_alone (k r) s1 end
  | Await call k => match call s with (r, s1) => run_alone (k r) s1 end
  end.






(** ** Data model *)

(** A row of table [users] (Supabase-Copy-Paste.sql): [user_id] is UNIQUE,
    [message_count] is an INTEGER. *)
Record UserRow := {
  user_id : string;
  message_count : Z;
  is_subscribed : bool
}.

(** A row of table [messages]. *)
Record MessageRow := {
  msg_user_id : string;
  role : string;
  content : string;
  created_at : Z
}.

(** What [select('role, content')] returns for a row. *)
Record Turn := { turn_role : string; turn_content : string }.

Inductive PromptPart :=
| TextPart (text : string)       (* { type: "text", text } *)
| ImageUrlPart (url : string).   (* { type: "image_url", image_url: { url } } *)

Definition Prompt := list PromptPart.

(** What the outside answers while a message is processed.  [faults]
    scripts the outcome of the coming fallible external calls, one entry per
    call, [true] meaning that the call fails; an exhausted script means that
    nothing fails any more. *)
Record Env := {
  faults : list bool;
  stripe_active : string -> bool;
  ai_reply : Prompt -> string;
  transcript_of : string -> string;
  media_url_of : string -> string;
  blocked_country : string -> bool
}.

(** The world outside the process: the two tables and the database clock,
    the messages delivered over WhatsApp, the calls received by the AI
    model, the logger's error lines, and the environment. *)
Record World := {
  users : gmap string UserRow;
  messages : list MessageRow;
  clock : Z;
  outbox : list (string * string);
  ai_calls : list Prompt;
  logs : list string;
  env : Env
}.

Definition set_users (f : gmap string UserRow -> gmap string UserRow) (w : World) : World :=
  {| users := f (users w); messages := messages w; clock := clock w;
     outbox := outbox w; ai_calls := ai_calls w; logs := logs w; env := env w |}.

Definition set_messages (f : list MessageRow -> list MessageRow) (w : World) : World :=
  {| users := users w; messages := f (messages w); clock := clock w;
     outbox := outbox w; ai_calls := ai_calls w; logs := logs w; env := env w |}.

Definition set_clock (f : Z -> Z) (w : World) : World :=
  {| users := users w; messages := messages w; clock := f (clock w);
     outbox := outbox w; ai_calls := ai_calls w; logs := logs w; env := env w |}.

Definition set_outbox (f : list (string * string) -> list (string * string)) (w : World) : World :=
  {| users := users w; messages := messages w; clock := clock w;
     outbox := f (outbox w); ai_calls := ai_calls w; logs := logs w; env := env w |}.

Definition set_ai_calls (f : list Prompt -> list Prompt) (w : World) : World :=
  {| users := users w; messages := messages w; clock := clock w;
     outbox := outbox w; ai_calls := f (ai_calls w); logs := logs w; env := env w |}.

Definition set_logs (f : list string -> list string) (w : World) : World :=
  {| users := users w; messages := messages w; clock := clock w;
     outbox := outbox w; ai_calls := ai_calls w; logs := f (logs w); env := env w |}.

Definition set_env (f : Env -> Env) (w : World) : World :=
  {| users := users w; messages := messages w; clock := clock w;
     outbox := outbox w; ai_calls := ai_calls w; logs := logs w; env := f (env w) |}.

Definition set_faults (fs : list bool) (e : Env) : Env :=
  {| faults := fs; stripe_active := stripe_active e; ai_reply := ai_reply e;
     transcript_of := transcript_of e; media_url_of := media_url_of e;
     blocked_country := blocked_country e |}.

(** The next external call fails iff this returns [true]. *)
Definition next_fault : M World bool :=
  fun w => match faults (env w) with
           | [] => (Return false, w)
           | b :: fs => (Return b, set_env (set_faults fs) w)
           end.

(** ** utils/logger.js (not among the sources) *)
Module logger.
(** Modelled from the spec: failures are "logged", and nothing else is said
    of the logger.  [logger.error(line)] appends the line to the log; the
    [info] and [debug] lines of the sources leave no trace and are left
    out. *)
Definition error (line : string) : M World unit :=
    modify (set_logs (fun ls => ls ++ [line])).
End logger.

(** ** botConfig.js *)
Module botConfig.
Definition nl : string := String "010"%char EmptyString.
Definition dquote : string := String "034"%char EmptyString.

Module ai.
Module prompts.
Module image.
Definition withCaption (caption : string) : string :=
          "Please analyze this image, say which plant it is and check for any health issues.: "
            +:+ dquote +:+ caption +:+ dquote +:+ " in {context}.".
Definition withoutCaption : string := "Please analyze this image in {context}.".
Definition defaultContext : string := "plant health doctor".
End image.
End prompts.
Definition contextMessageLimit : Z := 10.
End ai.

Module subscription.
Module messages.
Definition expired : string :=
        "You're out of plant scans. Upgrade for unlimited daily analysis!🌱 https://plantvisionai.com/subscribe".
End messages.
Module limits.
Definition freeMessages : Z := 10.
End limits.
End subscription.

Module errors.
Definition general : string :=
      "I apologize, but I'm having trouble processing your message right now. Please try again in a moment. 🙏".
Definition unsupportedType : string :=
      "I'm sorry, I can only process text, audio, and image messages at the moment. 🙏".
End errors.

Module access.
Module blockedCountries.
Definition message : string :=
        "Hi there, we are sorry but this service is not available in your country.".
End blockedCountries.
End access.

Module whatsapp.
Module rateLimit.
Definition window : Z := 1000.
Definition threshold : Z := 50.
End rateLimit.
End whatsapp.
End botConfig.

(** ** The supabase client ([src/config/supabase.js], a third-party SDK)

    Every query answers [{ data, error }].  A query fails when the fault
    script says so, and leaves the tables unchanged then. *)
Inductive Response (A : Type) :=
| Data (data : A)
| Error (error : JsError).
Arguments Data {A} data.
Arguments Error {A} error.

Module supabase.
Definition INT4_MAX : Z := 2147483647.

Definition request_failed : JsError := PostgrestError "request failed".

(** [from('users').select(...).eq('user_id', userId).maybeSingle()] *)
Definition users_select_maybeSingle (userId : string) : M World (Response (option UserRow)) :=
    let* failed := next_fault in
    if (failed : bool) then ret (Error request_failed)
    else let* tbl := gets users in ret (Data (tbl !! userId)).

(** [from('users').insert(row).single()]; [user_id] is UNIQUE.  The
      statement has no [.select()], so that the answer to a successful
      insert carries no row: its [data] is [null]. *)
Definition users_insert_single (row : UserRow) : M World (Response (option UserRow)) :=
    let* failed := next_fault in
    if (failed : bool) then ret (Error request_failed)
    else
      let* tbl := gets users in
      match tbl !! user_id row with
      | Some _ => ret (Error (PostgrestError "duplicate key value violates unique constraint"))
      | None => modify (set_users (fun t => <[user_id row := row]> t));; ret (Data None)
      end.

(** [from('users').update({ message_count: newCount }).eq('user_id', userId)];
      the column is an INTEGER. *)
Definition users_update_message_count (userId : string) (newCount : Z) : M World (Response unit) :=
    let* failed := next_fault in
    if (failed : bool) then ret (Error request_failed)
    else if (INT4_MAX <? newCount) || (newCount <? - INT4_MAX - 1)
    then ret (Error (PostgrestError "integer out of range"))
    else
      modify (set_users (fun t =>
        alter (fun r => {| user_id := user_id r; message_count := newCount;
                           is_subscribed := is_subscribed r |}) userId t));;
      ret (Data tt).

(** [from('users').update({ is_subscribed: isSubscribed }).eq('user_id', userId)] *)
Definition users_update_is_subscribed (userId : string) (isSubscribed : bool) : M World (Response unit) :=
    let* failed := next_fault in
    if (failed : bool) then ret (Error request_failed)
    else
      modify (set_users (fun t =>
        alter (fun r => {| user_id := user_id r; message_count := message_count r;
                           is_subscribed := isSubscribed |}) userId t));;
      ret (Data tt).

(** [ORDER BY created_at DESC] *)
Definition newer_first (a b : MessageRow) : Prop := created_at b <= created_at a.

#[global] Instance newer_first_dec a b : Decision (newer_first a b).
  Proof. unfold newer_first. apply _. Defined.

(** [from('messages').select('role, content').eq('user_id', userId)
        .order('created_at', { ascending: false }).limit(n)].
      The rows are returned whole here; [select] projects them in
      [getConversationContext]. *)
Definition messages_select_recent (userId : string) (n : Z) : M World (Response (list MessageRow)) :=
    let* failed := next_fault in
    if (failed : bool) then ret (Error request_failed)
    else
      let* tbl := gets messages in
      ret (Data (take (Z.to_nat n)
                   (merge_sort newer_first
                      (filter (fun r => msg_user_id r = userId) tbl)))).

(** [from('messages').insert(rows)]; [created_at] defaults to
      CURRENT_TIMESTAMP, the same for all rows of one statement. *)
Definition messages_insert (rows : list (string * string * string)) : M World (Response unit) :=
    let* failed := next_fault in
    if (failed : bool) then ret (Error request_failed)
    else
      let* now := gets clock in
      modify (set_messages (fun t =>
        t ++ map (fun '(uid, r, c) =>
                    {| msg_user_id := uid; role := r; content := c; created_at := now |}) rows));;
      modify (set_clock (fun t => t + 1));;
      ret (Data tt).
(** [from('users').select('is_subscribed').eq('user_id', userId).single()]:
    an error unless exactly one row matches; [user_id] being UNIQUE, that is
    unless the user has a row. *)
Definition users_select_single (userId : string) : M World (Response UserRow) :=
    let* failed := next_fault in
    if (failed : bool) then ret (Error request_failed)
    else
      let* tbl := gets users in
      match tbl !! userId with
      | Some row => ret (Data row)
      | None => ret (Error (PostgrestError
                              "JSON object requested, multiple (or no) rows returned"))
      end.
End supabase.

(** [user.member] on a row that may be [null]: reading a member of
    [null] throws a [TypeError]. *)
Definition read_member {A} (user : option UserRow) (name : string) (get : UserRow -> A)
    : Completion A :=
  match user with
  | Some row => Return (get row)
  | None => Throw (TypeError ("Cannot read properties of null (reading '" +:+ name +:+ "')"))
  end.

Definition member {S A} (user : option UserRow) (name : string) (get : UserRow -> A) : M S A :=
  fun s => (read_member user name get, s).

(** ** databaseService.js *)
Module databaseService.

(** The result is the row that was found, or the [data] of the insert:
    [None] stands for [null]. *)
Definition findOrCreateUser (userId : string) : M World (option UserRow) :=
    try_catch
      (let* fetched := supabase.users_select_maybeSingle userId in
       match fetched with
       | Error fetchError => throw fetchError
       | Data None =>
           let* inserted := supabase.users_insert_single
                              {| user_id := userId; message_count := 0; is_subscribed := false |} in
           match inserted with
           | Error insertError => throw insertError
           | Data newUser => ret newUser
           end
       | Data (Some userData) => ret (Some userData)
       end)
      (fun error =>
         logger.error ("Error finding or creating user: " +:+ error_message error);;
         throw error).

Definition incrementMessageCount (userId : string) : M World Z :=
    try_catch
      (let* user := findOrCreateUser userId in
       let* stored := member user "message_count" message_count in
       let newCount := stored + 1 in
       let* updated := supabase.users_update_message_count userId newCount in
       match updated with
       | Error updateError => throw updateError
       | Data _ => ret newCount
       end)
      (fun error =>
         logger.error ("Error incrementing message count: " +:+ error_message error);;
         throw error).

Definition updateSubscription (userId : string) (isSubscribed : bool) : M World unit :=
    try_catch
      (let* updated := supabase.users_update_is_subscribed userId isSubscribed in
       match updated with
       | Error error => throw error
       | Data _ => ret tt
       end)
      (fun error =>
         logger.error ("Error updating subscription: " +:+ error_message error);;
         throw error).

(** [a || b] on numbers: [0] is falsy. *)
Definition js_or (a b : Z) : Z := if a =? 0 then b else a.

Definition getConversationContext (userId : string) : M World (list Turn) :=
    try_catch
      (let* selected := supabase.messages_select_recent userId
                          (js_or botConfig.ai.contextMessageLimit 10) in
       match selected with
       | Error error => throw error
       | Data data =>
           ret (reverse (map (fun r => {| turn_role := role r; turn_content := content r |}) data))
       end)
      (fun error =>
         logger.error ("Error getting conversation context: " +:+ error_message error);;
         throw error).

Definition saveMessage (userId userMessage aiResponse : string) : M World unit :=
    try_catch
      (let* inserted := supabase.messages_insert
                          [ (userId, "user", userMessage);
                            (userId, "assistant", aiResponse) ] in
       match inserted with
       | Error error => throw error
       | Data _ => ret tt
       end)
      (fun error =>
         logger.error ("Error saving messages: " +:+ error_message error);;
         throw error).

Definition checkSubscription (userId : string) : M World bool :=
    try_catch
      (let* selected := supabase.users_select_single userId in
       match selected with
       | Error error => throw error
       | Data data => ret (is_subscribed data)
       end)
      (fun error =>
         logger.error ("Error checking subscription: " +:+ error_message error);;
         throw error).

End databaseService.

(** ** paymentService.js

    [checkStripeSubscription] wraps all of its Stripe queries in a
    [try]/[catch] that returns [false]: it never throws.  What Stripe knows
    about a phone number is the world's [stripe_active]. *)
Module paymentService.
Definition checkStripeSubscription (phoneNumber : string) : M World bool :=
    gets (fun w => stripe_active (env w) phoneNumber).
End paymentService.

(** ** services/whatsappService.js (not among the sources) *)
Module whatsapp.
(** Modelled from the spec: [OutboundMessenger.send(userId, text) -> void],
    fails with [DeliveryError].  A message that is sent reaches its
    recipient: it is appended to [outbox]. *)
Definition sendText (to text : string) : M World unit :=
    let* failed := next_fault in
    if (failed : bool) then throw (DeliveryError "send failed")
    else modify (set_outbox (fun o => o ++ [(to, text)])).
End whatsapp.

(** ** ai/model.js (not among the sources) *)
Module model.
(** Modelled from the spec: [Responder.generate(promptParts) -> string],
    fails with [GenerationError] on provider failure.  Every call is
    recorded in [ai_calls], also a failing one. *)
Definition generateResponse (prompt : Prompt) : M World string :=
    modify (set_ai_calls (fun cs => cs ++ [prompt]));;
    let* failed := next_fault in
    if (failed : bool) then throw (GenerationError "completion failed")
    else gets (fun w => ai_reply (env w) prompt).
End model.

(** ** services/transcriptionService.js, services/imageService.js,
    utils/countryBlocker.js (not among the sources) *)
Module media.
(** Modelled from the spec: audio transcription is an I/O wrapper around a
    third-party SDK with no state of its own; a call fails or answers what
    the outside answers. *)
Definition transcribeAudio (mediaId : string) : M World string :=
    let* failed := next_fault in
    if (failed : bool) then throw (MediaError "transcription failed")
    else gets (fun w => transcript_of (env w) mediaId).

(** Modelled from the spec: image download is an I/O wrapper of the same
    kind. *)
Definition downloadImageFromWhatsApp (mediaId : string) : M World string :=
    let* failed := next_fault in
    if (failed : bool) then throw (MediaError "download failed")
    else gets (fun w => media_url_of (env w) mediaId).

(** Modelled from the spec: the country blocker is outside the core; it
    answers for a phone number and does not fail. *)
Definition isBlockedCountry (phone : string) : M World bool :=
    gets (fun w => blocked_country (env w) phone).
End media.

(** ** The message handed to the queue *)

(** The [handlers] object built by the controller. *)
Record Handlers := {
  checkSubscription : string -> M World bool;
  findOrCreateUser : string -> M World (option UserRow);
  updateSubscription : string -> bool -> M World unit;
  incrementMessageCount : string -> M World Z;
  getConversationContext : string -> M World (list Turn);
  generateAIResponse : Prompt -> M World string;
  sendWhatsAppMessage : string -> string -> M World unit;
  saveMessage : string -> string -> string -> M World unit
}.

Record Message := {
  messageContent : string;
  messageForAI : Prompt
}.

Record MessageData := {
  message : Message;
  from : string;
  messageType : string;
  handlers : Handlers
}.

(** What the queue resolves to: [{ status, message }] or [{ delayed: true }]. *)
Inductive Outcome :=
| Status (status : string) (message : string)
| Delayed.

(** ** The process: the queue's module variables and the event loop

    [requestCount], [delayedMessages] and [processingDelayed] are the
    module-level variables of queueService.js.  [drains] holds the running
    invocations of [processDelayedMessages], each suspended at one of its
    two [await]s; nothing in this representation limits their number.
    [attempted] is a ghost record of the entries a drain has handed to
    [processMessageDirectly], in the order of the calls. *)
Inductive DrainPc :=
| AwaitPipeline (messageData : MessageData)  (* at [await processMessageDirectly(messageData)] *)
| AwaitPacing.                               (* at [await new Promise(r => setTimeout(r, 100))] *)

Record Sys := {
  requestCount : Z;
  delayedMessages : list MessageData;
  processingDelayed : bool;
  world : World;
  drains : list DrainPc;
  attempted : list MessageData
}.

Definition set_requestCount (f : Z -> Z) (s : Sys) : Sys :=
  {| requestCount := f (requestCount s); delayedMessages := delayedMessages s;
     processingDelayed := processingDelayed s; world := world s;
     drains := drains s; attempted := attempted s |}.

Definition set_delayedMessages (f : list MessageData -> list MessageData) (s : Sys) : Sys :=
  {| requestCount := requestCount s; delayedMessages := f (delayedMessages s);
     processingDelayed := processingDelayed s; world := world s;
     drains := drains s; attempted := attempted s |}.

Definition set_processingDelayed (b : bool) (s : Sys) : Sys :=
  {| requestCount := requestCount s; delayedMessages := delayedMessages s;
     processingDelayed := b; world := world s;
     drains := drains s; attempted := attempted s |}.

Definition set_world (f : World -> World) (s : Sys) : Sys :=
  {| requestCount := requestCount s; delayedMessages := delayedMessages s;
     processingDelayed := processingDelayed s; world := f (world s);
     drains := drains s; attempted := attempted s |}.

Definition set_drains (f : list DrainPc -> list DrainPc) (s : Sys) : Sys :=
  {| requestCount := requestCount s; delayedMessages := delayedMessages s;
     processingDelayed := processingDelayed s; world := world s;
     drains := f (drains s); attempted := attempted s |}.

Definition set_attempted (f : list MessageData -> list MessageData) (s : Sys) : Sys :=
  {| requestCount := requestCount s; delayedMessages := delayedMessages s;
     processingDelayed := processingDelayed s; world := world s;
     drains := drains s; attempted := f (attempted s) |}.

(** A computation on the world, run inside the process. *)
Definition in_world {A} (c : M World A) : M Sys A :=
  fun s => match c (world s) with
           | (r, w') => (r, set_world (fun _ => w') s)
           end.

(** ** queueService.js: the pipeline *)
Module queueService.

Definition RATE_LIMIT_WINDOW : Z := botConfig.whatsapp.rateLimit.window.
Definition RATE_LIMIT_THRESHOLD : Z := botConfig.whatsapp.rateLimit.threshold.

Definition testers : list string := ["31612345678"; "31636505705"; "31681883910"].

Definition render_turn (msg : Turn) : string :=
    turn_role msg +:+ ": " +:+ turn_content msg.

Definition text_prompt (context userText : string) : Prompt :=
    [TextPart ("Previous conversation:" +:+ botConfig.nl +:+ context
               +:+ botConfig.nl +:+ botConfig.nl +:+ "User: " +:+ userText
               +:+ botConfig.nl +:+ "Assistant:")].

Definition processMessageDirectly (messageData : MessageData) : M World Outcome :=
    let message := message messageData in
    let from := from messageData in
    let messageType := messageType messageData in
    let h := handlers messageData in
    try_catch
      ((* Check subscription and user status first *)
       let* (isSubscribed, user) :=
         promise_all2 (checkSubscription h from) (findOrCreateUser h from) in
       (* Update subscription status if needed *)
       let* stored := member user "is_subscribed" is_subscribed in
       (if negb (Bool.eqb isSubscribed stored)
        then updateSubscription h from isSubscribed
        else ret tt);;
       (* Get message count and check limits *)
       let* messageCount := incrementMessageCount h from in
       let isTester := bool_decide (from ∈ testers) in
       if (messageCount <=? 10) || isSubscribed
       then
         let subscriptionMessage := botConfig.subscription.messages.expired in
         sendWhatsAppMessage h from subscriptionMessage;;
         ret (Status "subscription_required" subscriptionMessage)
       else
         let* contextMessages := getConversationContext h from in
         let context := String.concat botConfig.nl (map render_turn contextMessages) in
         let prompt := if String.eqb messageType "image"
                       then messageForAI message
                       else text_prompt context (messageContent message) in
         let* aiResponse := generateAIResponse h prompt in
         promise_all2 (sendWhatsAppMessage h from aiResponse)
                      (saveMessage h from (messageContent message) aiResponse);;
         ret (Status "success" aiResponse))
      (fun error =>
         logger.error ("Error in direct processing: " +:+ error_message error);;
         throw error).

(** [handleMessage(messageData)], the entry exported by the module. *)
Definition handleMessage (messageData : MessageData) : M Sys Outcome :=
    try_catch
      (modify (set_requestCount (fun n => n + 1));;
       let* n := gets requestCount in
       if RATE_LIMIT_THRESHOLD <? n
       then
         modify (set_delayedMessages (fun q => q ++ [messageData]));;
         ret Delayed
       else
         in_world (processMessageDirectly messageData))
      (fun error =>
         in_world (logger.error ("Error handling message: " +:+ error_message error));;
         throw error).

(** The head of the [while] loop of [processDelayedMessages], inside its
      [try]: either the next entry is shifted off the buffer and handed to
      [processMessageDirectly], where the drain suspends, or the loop ends
      and the [finally] block runs. *)
Definition drain_loop (s : Sys) : option DrainPc * Sys :=
    match delayedMessages s with
    | messageData :: rest =>
        (Some (AwaitPipeline messageData),
         set_attempted (fun a => a ++ [messageData])
           (set_delayedMessages (fun _ => rest) s))
    | [] =>
        (None, set_processingDelayed false s)
    end.

(** [processDelayedMessages()], from the call to its first [await]. *)
Definition processDelayedMessages (s : Sys) : Sys :=
    if (Z.of_nat (List.length (delayedMessages s)) =? 0) then s
    else
      let s1 := set_processingDelayed true s in
      match drain_loop s1 with
      | (Some pc, s2) => set_drains (fun ds => ds ++ [pc]) s2
      | (None, s2) => s2
      end.

(** The callback of [setInterval(..., RATE_LIMIT_WINDOW)]. *)
Definition window_tick (s : Sys) : Sys :=
    let s1 := set_requestCount (fun _ => 0) s in
    if (0 <? Z.of_nat (List.length (delayedMessages s1))) && negb (processingDelayed s1)
    then processDelayedMessages s1
    else s1.

(** Drain [i] resumes: the pipeline it awaited has settled.  The pipeline
      runs here, in the environment [e] of that moment. *)
Definition pipeline_settles (i : nat) (e : Env) (s : Sys) : Sys :=
    match drains s !! i with
    | Some (AwaitPipeline messageData) =>
        match in_world (processMessageDirectly messageData)
                (set_world (set_env (fun _ => e)) s) with
        | (Return _, s1) =>
            set_drains (fun ds => <[i := AwaitPacing]> ds) s1
        | (Throw error, s1) =>
            (* catch: logged; finally: the flag is reset; the drain is over *)
            let s2 := set_world (set_logs (fun ls =>
                        ls ++ ["Error processing delayed messages: " +:+ error_message error])) s1 in
            set_drains (fun ds => delete i ds) (set_processingDelayed false s2)
        end
    | _ => s
    end.

(** Drain [i] resumes: its pacing delay has elapsed; back to the loop head. *)
Definition pacing_elapses (i : nat) (s : Sys) : Sys :=
    match drains s !! i with
    | Some AwaitPacing =>
        match drain_loop s with
        | (Some pc, s1) => set_drains (fun ds => <[i := pc]> ds) s1
        | (None, s1) => set_drains (fun ds => delete i ds) s1
        end
    | _ => s
    end.

End queueService.

(** ** messageController.js *)

(** [req.body.entry[0].changes[0].value.messages[0]] *)
Record WebhookMessage := {
  msg_from : string;
  msg_type : string;
  text_body : string;
  audio_id : string;
  image_id : string;
  image_caption : option string
}.

Module messageController.

(** [s.replace(pattern, replacement)] with a string pattern: the first
      occurrence only. *)
Fixpoint replace_first (pattern replacement s : string) : string :=
    if String.prefix pattern s
    then replacement +:+
         String.substring (String.length pattern)
           (String.length s - String.length pattern) s
    else match s with
         | EmptyString => EmptyString
         | String c s' => String c (replace_first pattern replacement s')
         end.

Definition handlers : Handlers := {|
    checkSubscription := paymentService.checkStripeSubscription;
    findOrCreateUser := databaseService.findOrCreateUser;
    updateSubscription := databaseService.updateSubscription;
    incrementMessageCount := databaseService.incrementMessageCount;
    getConversationContext := databaseService.getConversationContext;
    generateAIResponse := model.generateResponse;
    sendWhatsAppMessage := whatsapp.sendText;
    saveMessage := databaseService.saveMessage
  |}.

Definition is_empty (s : string) : bool :=
    match s with EmptyString => true | _ => false end.

(** [botConfig.ai.prompts.defaultContext]: the members of [prompts] are
    [image] and [audio]; [defaultContext] is a member of [prompts.image],
    so that this expression is [undefined]. *)
Definition prompts_defaultContext : option string := None.

(** The conversion to a string that [replace] applies to its second
    argument. *)
Definition to_js_string (v : option string) : string :=
    match v with
    | Some s => s
    | None => "undefined"
    end.

(** [handleMessage(req)]; [req] is [None] when the payload carries no
      message.  The result is [None] where the function returns nothing. *)
Definition handleMessage (req : option WebhookMessage) : M Sys (option Outcome) :=
    try_catch
      (match req with
       | None => ret None
       | Some message =>
           let from := msg_from message in
           let* blocked := in_world (media.isBlockedCountry from) in
           if (blocked : bool) then
             in_world (whatsapp.sendText from botConfig.access.blockedCountries.message);;
             ret None
           else
             let messageType := msg_type message in
             let* prepared :=
               if String.eqb messageType "text" then
                 let messageContent := text_body message in
                 ret (Some (messageContent, [TextPart messageContent]))
               else if String.eqb messageType "audio" then
                 let mediaId := audio_id message in
                 let* messageContent := in_world (media.transcribeAudio mediaId) in
                 ret (Some (messageContent, [TextPart messageContent]))
               else if String.eqb messageType "image" then
                 let* imageUrl := in_world (media.downloadImageFromWhatsApp (image_id message)) in
                 let caption := default EmptyString (image_caption message) in
                 let messageContent :=
                   if is_empty caption then "Image sent by user"
                   else "Image with caption: " +:+ caption in
                 let promptTemplate :=
                   if is_empty caption then botConfig.ai.prompts.image.withoutCaption
                   else botConfig.ai.prompts.image.withCaption caption in
                 ret (Some (messageContent,
                            [ TextPart (replace_first "{context}"
                                          (to_js_string prompts_defaultContext) promptTemplate);
                              ImageUrlPart imageUrl ]))
               else ret None in
             match prepared with
             | None =>
                 in_world (whatsapp.sendText from botConfig.errors.unsupportedType);;
                 ret None
             | Some (messageContent, messageForAI) =>
                 let* result :=
                   queueService.handleMessage
                     (Build_MessageData
                        {| messageContent := messageContent;
                           messageForAI := messageForAI |}
                        from messageType handlers) in
                 ret (Some result)
             end
       end)
      (fun error =>
         in_world (logger.error ("Error processing message: " +:+ error_message error));;
         in_world (logger.error (error_message error));;
         (* [if (from)]: [from] is a [const] of the [try] block; neither the
            [catch] block, nor the function, nor the module binds that name,
            so that evaluating it throws. *)
         let* from := (throw (ReferenceError "from is not defined") : M Sys string) in
         if negb (is_empty from) then
           try_catch
             (in_world (whatsapp.sendText from botConfig.errors.general);; ret None)
             (fun sendError =>
                in_world (logger.error ("Failed to send error message: "
                                        +:+ error_message sendError));;
                ret None)
         else ret None).

End messageController.

(** ** The event loop

    What can happen next in the process: a message is submitted to the
    queue, the window timer fires, or a suspended drain resumes.  A
    submitted message that is processed inline runs its pipeline in one
    step: the pipeline touches none of the queue's variables, which are
    all that the steps of the queue depend on.  What runs of the pipeline
    that overlap do to the tables is not visible in this process; it is
    the subject of [interleave]. *)
Inductive Event :=
| Submit (messageData : MessageData) (e : Env)
| WindowTick
| PipelineSettles (i : nat) (e : Env)
| PacingElapses (i : nat).

Definition step (ev : Event) (s : Sys) : Sys :=
  match ev with
  | Submit messageData e =>
      snd (queueService.handleMessage messageData (set_world (set_env (fun _ => e)) s))
  | WindowTick => queueService.window_tick s
  | PipelineSettles i e => queueService.pipeline_settles i e s
  | PacingElapses i => queueService.pacing_elapses i s
  end.

Definition run (evs : list Event) (s : Sys) : Sys :=
  fold_left (fun s ev => step ev s) evs s.

Definition quiet_env : Env :=
  {| faults := []; stripe_active := fun _ => false; ai_reply := fun _ => "ok";
     transcript_of := fun _ => EmptyString; media_url_of := fun _ => EmptyString;
     blocked_country := fun _ => false |}.

Definition empty_world : World :=
  {| users := ∅; messages := []; clock := 0; outbox := []; ai_calls := [];
     logs := []; env := quiet_env |}.

(** The process as the module is loaded. *)
Definition init : Sys :=
  {| requestCount := 0; delayedMessages := []; processingDelayed := false;
     world := empty_world; drains := []; attempted := [] |}.

Inductive reachable : Sys -> Prop :=
| reachable_init w : reachable (set_world (fun _ => w) init)
| reachable_step ev s : reachable s -> reachable (step ev s).

(** ** paymentService.js in full: the Stripe lookup

    In the pipeline above the answer of [checkStripeSubscription] is the
    world's [stripe_active].  Here the function is embedded with its calls
    of the Stripe SDK.  [StripeApi] holds what Stripe answers during one
    check: a call resolves ([Return]) or rejects ([Throw]), and the same
    request gets the same answer. *)

Record Subscription := {
  sub_status : string;
  sub_trial_end : option Z;            (* [trial_end], seconds; [null] when there is no trial *)
  sub_metadata_phone : option string   (* [metadata.phone] *)
}.

Record PaymentIntent := {
  pi_status : string;
  pi_created : Z                       (* seconds *)
}.

Record Invoice := { inv_id : string }.

Record Customer := {
  cus_id : string;
  cus_phone : option string;
  cus_deleted : bool;
  cus_metadata_phone : option string;     (* [metadata.phone] *)
  cus_metadata_whatsapp : option string;  (* [metadata.whatsapp] *)
  cus_subscriptions : option (list Subscription)  (* [subscriptions.data], when expanded *)
}.

Record StripeApi := {
  customers_search : string -> Completion (list Customer);        (* [customers.search({ query })], its [data] *)
  customers_retrieve : string -> Completion Customer;             (* [customers.retrieve(id)] *)
  customers_list : Completion (list Customer);                    (* [customers.list({ limit: 100, expand })] *)
  subscriptions_list : string -> Completion (list Subscription);  (* [subscriptions.list({ customer, status: 'all', limit: 10 })] *)
  paymentIntents_list : string -> Completion (list PaymentIntent);(* [paymentIntents.list({ customer, limit: 5 })] *)
  invoices_list_paid : string -> Completion (list Invoice);       (* [invoices.list({ customer, status: 'paid', limit: 5 })] *)
  now_ms : Z                                                      (* [Date.now()] *)
}.

(** An awaited call of the SDK. *)
Definition call {A} (answer : Completion A) : M World A := fun w => (answer, w).

Module stripePayment.

(** [s.startsWith(prefix)] *)
Definition startsWith (s prefix : string) : bool := String.prefix prefix s.

(** [a || ''] on a string that may be [null] or [undefined] *)
Definition or_empty (a : option string) : string :=
    match a with
    | Some s => s
    | None => EmptyString
    end.

(** The predicate of [subscriptions.data.find]: [trial_end] counts when it
    is truthy and later than [Math.floor(Date.now() / 1000)]. *)
Definition active_or_in_trial (api : StripeApi) (sub : Subscription) : bool :=
    String.eqb (sub_status sub) "active"
    || String.eqb (sub_status sub) "trialing"
    || match sub_trial_end sub with
       | Some trial_end => negb (trial_end =? 0) && (now_ms api / 1000 <? trial_end)
       | None => false
       end.

(** The predicate of [paymentIntents.data.some]:
    [pi.created > Date.now() / 1000 - 30 * 24 * 60 * 60], in milliseconds
    to stay within the integers. *)
Definition recent_success (api : StripeApi) (pi : PaymentIntent) : bool :=
    String.eqb (pi_status pi) "succeeded"
    && (now_ms api - 30 * 24 * 60 * 60 * 1000 <? pi_created pi * 1000).

Definition checkCustomerSubscriptionStatus (api : StripeApi)
    (customerId querySource : string) : M World bool :=
    try_catch
      (let* subscriptions := call (subscriptions_list api customerId) in
       match List.find (active_or_in_trial api) subscriptions with
       | Some activeSubscription => ret true
       | None =>
           let* paymentIntents := call (paymentIntents_list api customerId) in
           let hasSuccessfulPayment := existsb (recent_success api) paymentIntents in
           if hasSuccessfulPayment then ret true
           else
             let* invoices := call (invoices_list_paid api customerId) in
             if (0 <? Z.of_nat (List.length invoices)) then ret true
             else ret false
       end)
      (fun error =>
         logger.error ("Error checking customer " +:+ customerId
                       +:+ " subscription status: " +:+ error_message error);;
         ret false).

Definition formattedPhoneNumber (phoneNumber : string) : string :=
    if startsWith phoneNumber "+" then phoneNumber else "+" +:+ phoneNumber.

Definition withoutPlus (phoneNumber : string) : string :=
    if startsWith phoneNumber "+"
    then String.substring 1 (String.length phoneNumber - 1) phoneNumber
    else phoneNumber.

(** [for (const query of queries)]: the first customer found by a query is
    checked; [true] stands for the [return true] inside the loop. *)
Fixpoint search_by_phone (api : StripeApi) (queries : list string) : M World bool :=
    match queries with
    | [] => ret false
    | query :: rest =>
        let* customers := call (customers_search api query) in
        match customers with
        | first :: _ =>
            let* isSubscribed := checkCustomerSubscriptionStatus api (cus_id first) query in
            if (isSubscribed : bool) then ret true else search_by_phone api rest
        | [] => search_by_phone api rest
        end
    end.

(** The predicate of [phonesToCheck.some]. *)
Definition phone_matches (formatted without phoneNumber p : string) : bool :=
    String.eqb p formatted || String.eqb p without || String.eqb p phoneNumber.

(** [for (const customer of allCustomers.data)] *)
Fixpoint scan_customers (api : StripeApi) (formatted without phoneNumber : string)
    (customers : list Customer) : M World bool :=
    match customers with
    | [] => ret false
    | customer :: rest =>
        let customerPhone := or_empty (cus_phone customer) in
        let metadataPhone := or_empty (cus_metadata_phone customer) in
        let metadataWhatsapp := or_empty (cus_metadata_whatsapp customer) in
        let phonesToCheck := [customerPhone; metadataPhone; metadataWhatsapp] in
        let* byMetadata :=
          if existsb (phone_matches formatted without phoneNumber) phonesToCheck
          then checkCustomerSubscriptionStatus api (cus_id customer) "metadata-search"
          else ret false in
        if (byMetadata : bool) then ret true
        else
          match cus_subscriptions customer with
          | Some (sub :: subs) =>
              let data := sub :: subs in
              let hasActiveSubscription :=
                existsb (fun sub => String.eqb (sub_status sub) "active"
                                    || String.eqb (sub_status sub) "trialing") data in
              let phoneMatches :=
                existsb (fun sub =>
                           match sub_metadata_phone sub with
                           | Some p => phone_matches formatted without phoneNumber p
                           | None => false
                           end) data in
              if hasActiveSubscription && phoneMatches then ret true
              else scan_customers api formatted without phoneNumber rest
          | _ => scan_customers api formatted without phoneNumber rest
          end
    end.

Definition checkStripeSubscription (api : StripeApi) (phoneNumber : string) : M World bool :=
    try_catch
      (let formatted := formattedPhoneNumber phoneNumber in
       let without := withoutPlus phoneNumber in
       let queries := [ "phone:'" +:+ formatted +:+ "'"; "phone:'" +:+ without +:+ "'" ] in
       (* matching by phone number first *)
       let* byPhone := search_by_phone api queries in
       if (byPhone : bool) then ret true
       else
         (* the phone number as a customer id *)
         let* byId :=
           try_catch
             (if startsWith phoneNumber "cus_" then
                let* customerDirectly := call (customers_retrieve api phoneNumber) in
                if negb (cus_deleted customerDirectly)
                then checkCustomerSubscriptionStatus api (cus_id customerDirectly)
                       ("id:" +:+ phoneNumber)
                else ret false
              else ret false)
             (fun err => ret false) in
         if (byId : bool) then ret true
         else
           (* last resort: the recent customers *)
           let* byList :=
             try_catch
               (let* allCustomers := call (customers_list api) in
                scan_customers api formatted without phoneNumber allCustomers)
               (fun err =>
                  logger.error ("Error in fallback customer search: " +:+ error_message err);;
                  ret false) in
           if (byList : bool) then ret true else ret false)
      (fun error =>
         logger.error ("Error checking Stripe subscription: " +:+ error_message error);;
         ret false).

End stripePayment.

(** ** routes/webhookRoutes.js *)
Module webhookRoutes.

(** A member of [req.query]: absent, a string, or an array or object built
    by the query parser. *)
Inductive QueryValue :=
| QAbsent
| QString (s : string)
| QNested.

Definition truthy (v : QueryValue) : bool :=
    match v with
    | QAbsent => false
    | QString s => negb (messageController.is_empty s)
    | QNested => true
    end.

(** [v === s] for a string [s] *)
Definition is_string (v : QueryValue) (s : string) : bool :=
    match v with
    | QString t => String.eqb t s
    | _ => false
    end.

(** [v === process.env.X]; the variable is a string or not set. *)
Definition is_env (v : QueryValue) (variable : option string) : bool :=
    match v, variable with
    | QString t, Some s => String.eqb t s
    | QAbsent, None => true
    | _, _ => false
    end.

Inductive Reply :=
| Send (status : Z) (body : QueryValue)   (* [res.status(status).send(body)] *)
| SendStatus (status : Z).                (* [res.sendStatus(status)] *)

(** [router.get('/whatsapp', ...)]: the webhook verification. *)
Definition get_whatsapp (VERIFY_TOKEN : option string)
    (mode token challenge : QueryValue) : Reply :=
    if truthy mode && truthy token then
      if is_string mode "subscribe" && is_env token VERIFY_TOKEN
      then Send 200 challenge
      else SendStatus 403
    else SendStatus 400.

(** [router.post('/whatsapp', ...)]: the status is sent first; the result
    is the status sent.  [logger.error(text, error)] is taken to write the
    text followed by the message of the error. *)
Definition post_whatsapp (req : option WebhookMessage) : M Sys Z :=
    let status := 200 in
    try_catch
      (messageController.handleMessage req;; ret tt)
      (fun error =>
         in_world (logger.error ("Error handling WhatsApp message: "
                                 +:+ error_message error)));;
    ret status.

End webhookRoutes.

(** * The same functions as promises

    The functions of the pipeline once more, with the [await] of every
    external call explicit.  [run_alone] of each of them is the function
    of the same name above (lemmas [run_alone_...]). *)
Module Concurrent.
Local Open Scope async_scope.

Definition member {S A} (user : option UserRow) (name : string) (get : UserRow -> A)
    : Async S A :=
    Settle (read_member user name get).

Module databaseService.

Definition findOrCreateUser (userId : string) : Async World (option UserRow) :=
    atry_catch
      (let* fetched := await_ (supabase.users_select_maybeSingle userId) in
       match fetched with
       | Error fetchError => athrow fetchError
       | Data None =>
           let* inserted := await_ (supabase.users_insert_single
                              {| user_id := userId; message_count := 0;
                                 is_subscribed := false |}) in
           match inserted with
           | Error insertError => athrow insertError
           | Data newUser => aret newUser
           end
       | Data (Some userData) => aret (Some userData)
       end)
      (fun error =>
         sync (logger.error ("Error finding or creating user: " +:+ error_message error));;
         athrow error).

Definition incrementMessageCount (userId : string) : Async World Z :=
    atry_catch
      (let* user := findOrCreateUser userId in
       let* stored := member user "message_count" message_count in
       let newCount := stored + 1 in
       let* updated := await_ (supabase.users_update_message_count userId newCount) in
       match updated with
       | Error updateError => athrow updateError
       | Data _ => aret newCount
       end)
      (fun error =>
         sync (logger.error ("Error incrementing message count: " +:+ error_message error));;
         athrow error).

Definition updateSubscription (userId : string) (isSubscribed : bool) : Async World unit :=
    atry_catch
      (let* updated := await_ (supabase.users_update_is_subscribed userId isSubscribed) in
       match updated with
       | Error error => athrow error
       | Data _ => aret tt
       end)
      (fun error =>
         sync (logger.error ("Error updating subscription: " +:+ error_message error));;
         athrow error).

Definition getConversationContext (userId : string) : Async World (list Turn) :=
    atry_catch
      (let* selected := await_ (supabase.messages_select_recent userId
                                  (databaseService.js_or botConfig.ai.contextMessageLimit 10)) in
       match selected with
       | Error error => athrow error
       | Data data =>
           aret (reverse (map (fun r => {| turn_role := role r; turn_content := content r |})
                            data))
       end)
      (fun error =>
         sync (logger.error ("Error getting conversation context: " +:+ error_message error));;
         athrow error).

Definition saveMessage (userId userMessage aiResponse : string) : Async World unit :=
    atry_catch
      (let* inserted := await_ (supabase.messages_insert
                                  [ (userId, "user", userMessage);
                                    (userId, "assistant", aiResponse) ]) in
       match inserted with
       | Error error => athrow error
       | Data _ => aret tt
       end)
      (fun error =>
         sync (logger.error ("Error saving messages: " +:+ error_message error));;
         athrow error).

End databaseService.

(** The services that are one external call each. *)
Module paymentService.
Definition checkStripeSubscription (phoneNumber : string) : Async World bool :=
    await_ (paymentService.checkStripeSubscription phoneNumber).
End paymentService.

Module whatsapp.
Definition sendText (to text : string) : Async World unit :=
    await_ (whatsapp.sendText to text).
End whatsapp.

Module model.
Definition generateResponse (prompt : Prompt) : Async World string :=
    await_ (model.generateResponse prompt).
End model.

(** The [handlers] object, its members returning promises. *)
Record Handlers := {
  checkSubscription : string -> Async World bool;
  findOrCreateUser : string -> Async World (option UserRow);
  updateSubscription : string -> bool -> Async World unit;
  incrementMessageCount : string -> Async World Z;
  getConversationContext : string -> Async World (list Turn);
  generateAIResponse : Prompt -> Async World string;
  sendWhatsAppMessage : string -> string -> Async World unit;
  saveMessage : string -> string -> string -> Async World unit
}.

(** The handlers that the controller passes. *)
Definition controller_handlers : Handlers := {|
    checkSubscription := paymentService.checkStripeSubscription;
    findOrCreateUser := databaseService.findOrCreateUser;
    updateSubscription := databaseService.updateSubscription;
    incrementMessageCount := databaseService.incrementMessageCount;
    getConversationContext := databaseService.getConversationContext;
    generateAIResponse := model.generateResponse;
    sendWhatsAppMessage := whatsapp.sendText;
    saveMessage := databaseService.saveMessage
  |}.

(** The object that the controller passes to the queue, and the object
    that it passes for message [m], sender [f] and type [t]. *)
Record MessageData := {
  message : Message;
  from : string;
  messageType : string;
  handlers : Handlers
}.

Definition from_controller (m : Message) (f t : string) : MessageData :=
    {| message := m; from := f; messageType := t; handlers := controller_handlers |}.

(** [processMessageDirectly(messageData)] of queueService.js *)
Definition processMessageDirectly (messageData : MessageData) : Async World Outcome :=
    let message := message messageData in
    let from := from messageData in
    let messageType := messageType messageData in
    let h := handlers messageData in
    atry_catch
      (let* (isSubscribed, user) :=
         apromise_all2 (checkSubscription h from) (findOrCreateUser h from) in
       let* stored := member user "is_subscribed" is_subscribed in
       (if negb (Bool.eqb isSubscribed stored)
        then updateSubscription h from isSubscribed
        else aret tt);;
       let* messageCount := incrementMessageCount h from in
       let isTester := bool_decide (from ∈ queueService.testers) in
       if (messageCount <=? 10) || isSubscribed
       then
         let subscriptionMessage := botConfig.subscription.messages.expired in
         sendWhatsAppMessage h from subscriptionMessage;;
         aret (Status "subscription_required" subscriptionMessage)
       else
         let* contextMessages := getConversationContext h from in
         let context := String.concat botConfig.nl
                          (map queueService.render_turn contextMessages) in
         let prompt := if String.eqb messageType "image"
                       then messageForAI message
                       else queueService.text_prompt context (messageContent message) in
         let* aiResponse := generateAIResponse h prompt in
         apromise_all2 (sendWhatsAppMessage h from aiResponse)
                       (saveMessage h from (messageContent message) aiResponse);;
         aret (Status "success" aiResponse))
      (fun error =>
         sync (logger.error ("Error in direct processing: " +:+ error_message error));;
         athrow error).

End Concurrent.

(** * Vocabulary of the properties *)

(** The stored message count of a user; a user without a row has sent
    nothing yet. *)
Definition count_of (userId : string) (w : World) : Z :=
  match users w !! userId with
  | Some r => message_count r
  | None => 0
  end.

(** The stored subscription flag of a user. *)
Definition flag_of (userId : string) (w : World) : option bool :=
  is_subscribed <$> users w !! userId.

(** Messages built by the controller carry the controller's handlers. *)
Definition from_controller (messageData : MessageData) : Prop :=
  handlers messageData = messageController.handlers.

Definition in_env (e : Env) (w : World) : World := set_env (fun _ => e) w.

(** The [k]-th coming external call fails. *)
Definition fails_at (k : nat) (w : World) : bool := nth k (faults (env w)) false.


(** A call of the queue's [handleMessage], and a series of them without a
    window tick in between. *)
Definition submit (job : MessageData * Env) (s : Sys) : Completion Outcome * Sys :=
  queueService.handleMessage (fst job) (set_world (in_env (snd job)) s).

Fixpoint submit_all (jobs : list (MessageData * Env)) (s : Sys) : list (Completion Outcome) * Sys :=
  match jobs with
  | [] => ([], s)
  | job :: rest =>
      match submit job s with
      | (r, s1) =>
          match submit_all rest s1 with
          | (rs, s2) => (r :: rs, s2)
          end
      end
  end.

(** A fair scheduler for a process that receives no new message: the
    window timer fires when no drain is running, a running drain is
    resumed otherwise.  [envs t] is the environment at step [t]. *)
Definition next_event (e : Env) (s : Sys) : Event :=
  match drains s with
  | [] => WindowTick
  | AwaitPipeline _ :: _ => PipelineSettles 0 e
  | AwaitPacing :: _ => PacingElapses 0
  end.

Fixpoint pump (envs : nat -> Env) (fuel : nat) (s : Sys) : Sys :=
  match fuel with
  | O => s
  | S k => pump envs k (step (next_event (envs k) s) s)
  end.

(** A bound on the number of scheduler steps until the buffer is drained. *)
Definition steps_left (s : Sys) : nat :=
  match drains s with
  | [] => match delayedMessages s with
          | [] => 0
          | _ :: rest => 2 * List.length rest + 3
          end
  | AwaitPipeline _ :: _ => 2 * List.length (delayedMessages s) + 2
  | AwaitPacing :: _ => 2 * List.length (delayedMessages s) + 1
  end.

(** The rows of a user's conversation, and what [select('role, content')]
    keeps of a row. *)
Definition conversation (userId : string) (w : World) : list MessageRow :=
  filter (fun r => msg_user_id r = userId) (messages w).

Definition turn_of (r : MessageRow) : Turn :=
  {| turn_role := role r; turn_content := content r |}.

Definition oldest_first (a b : MessageRow) : Prop := created_at a <= created_at b.

(** At most one drain runs, and the flag says whether one does. *)
Definition drain_inv (s : Sys) : Prop :=
  (processingDelayed s = false /\ drains s = [])
  \/ (processingDelayed s = true /\ exists pc, drains s = [pc]).

(** ** Vocabulary of the further properties *)


(** The messages that a series of events sends to the buffer: those
    submitted when the window counter has reached the threshold. *)
Fixpoint deferred (evs : list Event) (s : Sys) : list MessageData :=
  match evs with
  | [] => []
  | ev :: rest =>
      match ev with
      | Submit messageData _ =>
          if queueService.RATE_LIMIT_THRESHOLD <? requestCount s + 1
          then [messageData] else []
      | _ => []
      end ++ deferred rest (step ev s)
  end.

(** The same computation [n] times in a row, with the results in order. *)
Fixpoint times {S A} (n : nat) (c : M S A) : M S (list A) :=
  match n with
  | O => ret []
  | S k => let* a := c in let* rest := times k c in ret (a :: rest)
  end.

(** The two rows that [saveMessage] inserts at time [at_]. *)
Definition saved_rows (userId userMessage aiResponse : string) (at_ : Z) : list MessageRow :=
  [ {| msg_user_id := userId; role := "user"; content := userMessage; created_at := at_ |};
    {| msg_user_id := userId; role := "assistant"; content := aiResponse; created_at := at_ |} ].

(** ** Concrete inputs *)
Module sample.
Definition alice : string := "31600000001".

Definition text_from (userId body : string) : MessageData :=
    Build_MessageData {| messageContent := body; messageForAI := [TextPart body] |}
      userId "text" messageController.handlers.

Definition env_with (stripe : bool) (script : list bool) : Env :=
    {| faults := script; stripe_active := fun _ => stripe; ai_reply := fun _ => "reply";
       transcript_of := fun _ => EmptyString; media_url_of := fun _ => EmptyString;
       blocked_country := fun _ => false |}.

(** A world in which [alice] has a row, and nobody else. *)
Definition world_with (count : Z) (flag stripe : bool) (script : list bool) : World :=
    {| users := {[ alice := {| user_id := alice; message_count := count;
                               is_subscribed := flag |} ]};
       messages := []; clock := 0; outbox := []; ai_calls := []; logs := [];
       env := env_with stripe script |}.

Definition sys_with (w : World) : Sys := set_world (fun _ => w) init.

Definition text_request (userId body : string) : option WebhookMessage :=
    Some {| msg_from := userId; msg_type := "text"; text_body := body;
            audio_id := EmptyString; image_id := EmptyString; image_caption := None |}.

Definition row (userId : string) (at_ : Z) (r c : string) : MessageRow :=
    {| msg_user_id := userId; role := r; content := c; created_at := at_ |}.
End sample.

(** * Proof automation: symbolic execution of the services *)

Ltac run_step :=
  lazy beta iota zeta delta
      [queueService.processMessageDirectly
       databaseService.findOrCreateUser databaseService.incrementMessageCount
       databaseService.updateSubscription databaseService.getConversationContext
       databaseService.saveMessage paymentService.checkStripeSubscription
       whatsapp.sendText model.generateResponse
       supabase.users_select_maybeSingle supabase.users_insert_single
       supabase.users_update_message_count supabase.users_update_is_subscribed
       supabase.messages_select_recent supabase.messages_insert
       supabase.request_failed
       logger.error
       bind ret throw try_catch gets modify member read_member promise_all2 next_fault
       fst snd users messages clock outbox ai_calls logs env faults
       stripe_active ai_reply set_users set_messages set_clock set_outbox
       set_ai_calls set_logs set_env set_faults in_env
       handlers message from messageType
       checkSubscription findOrCreateUser updateSubscription
       incrementMessageCount getConversationContext generateAIResponse
       sendWhatsAppMessage saveMessage messageController.handlers
       negb orb andb Bool.eqb user_id message_count is_subscribed].

Ltac innermost t :=
  lazymatch t with
  | context [match ?x with _ => _ end] => innermost x
  | _ => t
  end.

Ltac case_step :=
  match goal with
  | |- context [match ?x with _ => _ end] =>
      let y := innermost x in
      first [ is_var y; destruct y | destruct y eqn:? ]
  end.

Ltac exec := run_step; repeat (case_step; run_step).

Ltac open_world w :=
  destruct w as [?us ?ms ?ck ?ob ?ai ?lg [?fs ?st ?ar ?tr ?mu ?bc]].

(** ** What each service does to the [users] table *)

Lemma findOrCreateUser_users userId w :
  users (snd (databaseService.findOrCreateUser userId w)) = users w
  \/ (users w !! userId = None
      /\ users (snd (databaseService.findOrCreateUser userId w))
         = <[userId := {| user_id := userId; message_count := 0;
                          is_subscribed := false |}]> (users w)).
Proof.
  open_world w. exec; auto.
Qed.

(** What the function returns: the stored row of a user who has one, and
    [null] for a user whose row it has just created. *)
Lemma findOrCreateUser_result userId w :
  match fst (databaseService.findOrCreateUser userId w) with
  | Return (Some u) =>
      users w !! userId = Some u
      /\ users (snd (databaseService.findOrCreateUser userId w)) = users w
  | Return None =>
      users w !! userId = None
      /\ users (snd (databaseService.findOrCreateUser userId w))
         = <[userId := {| user_id := userId; message_count := 0;
                          is_subscribed := false |}]> (users w)
  | Throw _ => users (snd (databaseService.findOrCreateUser userId w)) = users w
  end.
Proof.
  open_world w. exec; simplify_eq; auto.
Qed.

Lemma findOrCreateUser_returned userId w u w' :
  databaseService.findOrCreateUser userId w = (Return (Some u), w') ->
  users w' !! userId = Some u.
Proof.
  intros E. pose proof (findOrCreateUser_result userId w) as H.
  rewrite E in H. cbn [fst snd] in H. destruct H as [Hu ->]. exact Hu.
Qed.

Lemma findOrCreateUser_count userId w u :
  count_of u (snd (databaseService.findOrCreateUser userId w)) = count_of u w.
Proof.
  unfold count_of.
  destruct (findOrCreateUser_users userId w) as [-> | [Hnone ->]]; [done|].
  destruct (decide (userId = u)) as [<- | Hne].
  - by rewrite lookup_insert_eq, Hnone.
  - by rewrite lookup_insert_ne.
Qed.

Lemma updateSubscription_users userId b w :
  users (snd (databaseService.updateSubscription userId b w)) = users w
  \/ users (snd (databaseService.updateSubscription userId b w))
     = alter (fun r => {| user_id := user_id r; message_count := message_count r;
                          is_subscribed := b |}) userId (users w).
Proof.
  open_world w. exec; auto.
Qed.

Lemma updateSubscription_count userId b w u :
  count_of u (snd (databaseService.updateSubscription userId b w)) = count_of u w.
Proof.
  unfold count_of.
  destruct (updateSubscription_users userId b w) as [-> | ->]; [done|].
  rewrite lookup_alter. case_decide; [subst|done].
  by destruct (_ !! u).
Qed.

Lemma incrementMessageCount_count userId w :
  (forall u, u <> userId ->
     count_of u (snd (databaseService.incrementMessageCount userId w)) = count_of u w)
  /\ match fst (databaseService.incrementMessageCount userId w) with
     | Return n =>
         n = count_of userId w + 1
         /\ count_of userId (snd (databaseService.incrementMessageCount userId w)) = n
     | Throw _ =>
         count_of userId (snd (databaseService.incrementMessageCount userId w))
         = count_of userId w
     end.
Proof.
  unfold count_of. open_world w. split.
  - intros u Hne. exec; cbn;
      rewrite ?lookup_alter_ne, ?lookup_insert_ne in * by done;
      simplify_eq; done.
  - exec; cbn; rewrite ?lookup_alter_eq, ?lookup_insert_eq in *;
      repeat match goal with H : ?us !! ?k = _ |- _ => rewrite ?H in *; clear H end;
      cbn in *; simplify_eq; cbn; try done.
Qed.

(** The services that run after the count are independent of [users]. *)
Lemma sendText_count to text w u :
  count_of u (snd (whatsapp.sendText to text w)) = count_of u w.
Proof. unfold count_of. open_world w. exec; done. Qed.

Lemma getConversationContext_count userId w u :
  count_of u (snd (databaseService.getConversationContext userId w)) = count_of u w.
Proof. unfold count_of. open_world w. exec; done. Qed.

Lemma generateResponse_count prompt w u :
  count_of u (snd (model.generateResponse prompt w)) = count_of u w.
Proof. unfold count_of. open_world w. exec; done. Qed.

Lemma saveMessage_count userId a b w u :
  count_of u (snd (databaseService.saveMessage userId a b w)) = count_of u w.
Proof. unfold count_of. open_world w. exec; done. Qed.

Lemma count_of_set_logs f w u : count_of u (set_logs f w) = count_of u w.
Proof. done. Qed.


(** ** The pipeline, service by service *)

Ltac pipe_step :=
  lazy beta iota zeta delta
      [queueService.processMessageDirectly
       paymentService.checkStripeSubscription logger.error
       bind ret throw try_catch gets modify member read_member promise_all2
       fst snd handlers message from messageType
       checkSubscription findOrCreateUser updateSubscription
       incrementMessageCount getConversationContext generateAIResponse
       sendWhatsAppMessage saveMessage messageController.handlers
       negb orb andb Bool.eqb].

Ltac pipe := pipe_step; repeat (case_step; pipe_step).

(** Turn the recorded service calls into facts about the counts. *)
Ltac count_facts :=
  repeat match goal with
    | H : databaseService.findOrCreateUser ?i ?w = _ |- _ =>
        let F := fresh "F" in
        pose proof (findOrCreateUser_count i w) as F; rewrite H in F; clear H
    | H : databaseService.updateSubscription ?i ?b ?w = _ |- _ =>
        let F := fresh "F" in
        pose proof (updateSubscription_count i b w) as F; rewrite H in F; clear H
    | H : databaseService.incrementMessageCount ?i ?w = _ |- _ =>
        let F := fresh "F" in
        pose proof (incrementMessageCount_count i w) as F; rewrite H in F;
        destruct F as [? ?]; clear H
    | H : whatsapp.sendText ?i ?t ?w = _ |- _ =>
        let F := fresh "F" in
        pose proof (sendText_count i t w) as F; rewrite H in F; clear H
    | H : databaseService.getConversationContext ?i ?w = _ |- _ =>
        let F := fresh "F" in
        pose proof (getConversationContext_count i w) as F; rewrite H in F; clear H
    | H : model.generateResponse ?p ?w = _ |- _ =>
        let F := fresh "F" in
        pose proof (generateResponse_count p w) as F; rewrite H in F; clear H
    | H : databaseService.saveMessage ?i ?a ?b ?w = _ |- _ =>
        let F := fresh "F" in
        pose proof (saveMessage_count i a b w) as F; rewrite H in F; clear H
    end;
  cbn [fst snd] in *; rewrite ?count_of_set_logs.

Ltac at_user u :=
  repeat match goal with
    | F : forall v : string, v <> _ -> _ |- _ =>
        first [ specialize (F u ltac:(assumption)) | clear F ]
    | F : forall v : string, _ |- _ => specialize (F u)
    end.


(** The sender's count after a run, and the count on which the run took
    its decision. *)
Lemma pipeline_count_sender md w :
  from_controller md ->
  match fst (queueService.processMessageDirectly md w) with
  | Return (Status status _) =>
      count_of (from md) (snd (queueService.processMessageDirectly md w))
      = count_of (from md) w + 1
      /\ (status = "success"
          -> 10 < count_of (from md) w + 1
             /\ stripe_active (env w) (from md) = false)
      /\ (status = "subscription_required"
          -> count_of (from md) w + 1 <= 10
             \/ stripe_active (env w) (from md) = true)
  | Return Delayed => False
  | Throw _ =>
      count_of (from md) w
      <= count_of (from md) (snd (queueService.processMessageDirectly md w))
      <= count_of (from md) w + 1
  end.
Proof.
  destruct md as [msg frm ty h]. unfold from_controller. cbn. intros ->.
  pipe; count_facts; at_user frm;
    repeat match goal with H : _ /\ _ |- _ => destruct H end; subst;
    repeat split; try discriminate; try lia; intros _;
    repeat match goal with
      | H : (_ <=? _) = true |- _ => apply Z.leb_le in H
      | H : (_ <=? _) = false |- _ => apply Z.leb_gt in H
      end;
    try (left; lia); try (right; reflexivity); try (split; [lia | reflexivity]).
Qed.


(** * The free-tier decision *)

(** The guard of the pipeline, read off its outcomes: the Responder's reply
    is the outcome only above the limit and without a subscription, the
    upsell message is the outcome only within the limit or with a
    subscription. *)
Lemma limit_check_polarity md w status text :
  from_controller md ->
  fst (queueService.processMessageDirectly md w) = Return (Status status text) ->
  (status = "success"
   -> 10 < count_of (from md) w + 1 /\ stripe_active (env w) (from md) = false)
  /\ (status = "subscription_required"
      -> count_of (from md) w + 1 <= 10 \/ stripe_active (env w) (from md) = true).
Proof.
  intros Hmd E. pose proof (pipeline_count_sender md w Hmd) as H.
  rewrite E in H. tauto.
Qed.

(** C1, evaluated on the code.  A user whose row holds 10 messages and no
    subscription sends one more message: the updated count is 11, above the
    free-tier limit.  The pipeline calls the Responder, delivers its reply
    and returns [success]; no upsell message is sent. *)
Theorem over_limit_free_user_reaches_responder :
  let w := sample.world_with 10 false false [] in
  let r := queueService.processMessageDirectly (sample.text_from sample.alice "hi") w in
  fst r = Return (Status "success" "reply")
  /\ count_of sample.alice (snd r) = 11
  /\ ai_calls (snd r) = [queueService.text_prompt EmptyString "hi"]
  /\ outbox (snd r) = [(sample.alice, "reply")].
Proof. vm_compute. repeat split. Qed.

(** C2, evaluated on the code.  A subscribed user (Stripe and the stored
    flag agree) sends a message: the pipeline delivers the upsell message
    and returns [subscription_required]; the Responder is not called. *)
Theorem subscribed_user_gets_upsell :
  let w := sample.world_with 30 true true [] in
  let r := queueService.processMessageDirectly (sample.text_from sample.alice "hi") w in
  fst r = Return (Status "subscription_required" botConfig.subscription.messages.expired)
  /\ ai_calls (snd r) = []
  /\ outbox (snd r) = [(sample.alice, botConfig.subscription.messages.expired)].
Proof. vm_compute. repeat split. Qed.

(** * The queue: admission *)

Ltac queue_step :=
  lazy beta iota zeta delta
      [queueService.handleMessage queueService.RATE_LIMIT_THRESHOLD
       botConfig.whatsapp.rateLimit.threshold logger.error
       bind ret throw try_catch gets modify member read_member in_world submit
       fst snd requestCount delayedMessages processingDelayed world drains attempted
       set_requestCount set_delayedMessages set_processingDelayed set_world
       set_drains set_attempted].

Lemma handleMessage_inline md s :
  requestCount s + 1 <= queueService.RATE_LIMIT_THRESHOLD ->
  queueService.handleMessage md s
  = match queueService.processMessageDirectly md (world s) with
    | (Return out, w') =>
        (Return out, set_world (fun _ => w') (set_requestCount (fun n => n + 1) s))
    | (Throw error, w') =>
        (Throw error,
         set_world (fun _ => set_logs (fun ls =>
                      ls ++ ["Error handling message: " +:+ error_message error]) w')
           (set_requestCount (fun n => n + 1) s))
    end.
Proof.
  destruct s as [n q flag w ds att]. cbn [requestCount world]. intros Hn.
  queue_step.
  replace (50 <? n + 1) with false by (symmetry; apply Z.ltb_ge; exact Hn).
  queue_step.
  destruct (queueService.processMessageDirectly md w) as [[out|error] w']; reflexivity.
Qed.

Lemma handleMessage_buffered md s :
  queueService.RATE_LIMIT_THRESHOLD < requestCount s + 1 ->
  queueService.handleMessage md s
  = (Return Delayed,
     set_delayedMessages (fun q => q ++ [md]) (set_requestCount (fun n => n + 1) s)).
Proof.
  destruct s as [n q flag w ds att]. cbn [requestCount]. intros Hn.
  queue_step.
  replace (50 <? n + 1) with true by (symmetry; apply Z.ltb_lt; exact Hn).
  reflexivity.
Qed.

Lemma submit_requestCount job s :
  requestCount (snd (submit job s)) = requestCount s + 1.
Proof.
  unfold submit.
  destruct (Z_le_gt_dec (requestCount (set_world (in_env (snd job)) s) + 1)
              queueService.RATE_LIMIT_THRESHOLD) as [Hle | Hgt].
  - rewrite handleMessage_inline by exact Hle.
    destruct (queueService.processMessageDirectly _ _) as [[out|error] w']; reflexivity.
  - rewrite handleMessage_buffered by lia. reflexivity.
Qed.

Lemma submit_delayedMessages job s :
  delayedMessages (snd (submit job s))
  = if requestCount s + 1 <=? queueService.RATE_LIMIT_THRESHOLD
    then delayedMessages s
    else delayedMessages s ++ [fst job].
Proof.
  unfold submit.
  destruct (Z.leb_spec (requestCount s + 1) queueService.RATE_LIMIT_THRESHOLD) as [Hle | Hgt].
  - rewrite handleMessage_inline by exact Hle.
    destruct (queueService.processMessageDirectly _ _) as [[out|error] w']; reflexivity.
  - rewrite handleMessage_buffered by exact Hgt. reflexivity.
Qed.

Lemma submit_all_app jobs1 jobs2 s :
  submit_all (jobs1 ++ jobs2) s
  = (fst (submit_all jobs1 s) ++ fst (submit_all jobs2 (snd (submit_all jobs1 s))),
     snd (submit_all jobs2 (snd (submit_all jobs1 s)))).
Proof.
  revert s. induction jobs1 as [| job jobs1 IH]; intros s; cbn [submit_all app fst snd].
  - by destruct (submit_all jobs2 s).
  - destruct (submit job s) as [r s1]. rewrite IH.
    by destruct (submit_all jobs1 s1).
Qed.

Lemma submit_all_requestCount jobs s :
  requestCount (snd (submit_all jobs s)) = requestCount s + Z.of_nat (List.length jobs).
Proof.
  revert s. induction jobs as [| job jobs IH]; intros s; cbn [submit_all List.length].
  - cbn. lia.
  - pose proof (submit_requestCount job s) as H.
    destruct (submit job s) as [r s1]. specialize (IH s1).
    destruct (submit_all jobs s1) as [rs s2]. cbn [snd] in *. lia.
Qed.

(** After a series of submissions the buffer has grown by the messages
    that arrived once the window's budget was used up, in their order. *)
Lemma submit_all_delayedMessages jobs s :
  0 <= requestCount s ->
  delayedMessages (snd (submit_all jobs s))
  = delayedMessages s
    ++ map fst (drop (Z.to_nat (queueService.RATE_LIMIT_THRESHOLD - requestCount s)) jobs).
Proof.
  revert s. induction jobs as [| job jobs IH]; intros s Hc; cbn [submit_all].
  - rewrite drop_nil. cbn. by rewrite app_nil_r.
  - pose proof (submit_requestCount job s) as Hn.
    pose proof (submit_delayedMessages job s) as Hq.
    destruct (submit job s) as [r s1]. cbn [snd] in Hn, Hq.
    specialize (IH s1 ltac:(lia)).
    destruct (submit_all jobs s1) as [rs s2]. cbn [snd] in *.
    rewrite IH, Hq, Hn.
    destruct (Z.leb_spec (requestCount s + 1) queueService.RATE_LIMIT_THRESHOLD) as [Hle | Hgt].
    + replace (Z.to_nat (queueService.RATE_LIMIT_THRESHOLD - requestCount s))
        with (S (Z.to_nat (queueService.RATE_LIMIT_THRESHOLD - (requestCount s + 1))))
        by lia.
      reflexivity.
    + replace (Z.to_nat (queueService.RATE_LIMIT_THRESHOLD - requestCount s)) with O by lia.
      replace (Z.to_nat (queueService.RATE_LIMIT_THRESHOLD - (requestCount s + 1))) with O by lia.
      rewrite !drop_0. cbn [map]. by rewrite <- app_assoc.
Qed.

Lemma submit_all_length jobs s :
  List.length (fst (submit_all jobs s)) = List.length jobs.
Proof.
  revert s. induction jobs as [| job jobs IH]; intros s; cbn [submit_all]; [done|].
  destruct (submit job s) as [r s1]. specialize (IH s1).
  destruct (submit_all jobs s1) as [rs s2]. cbn [fst List.length] in *. lia.
Qed.

(** The result of the [i]-th submission of a series is the result of
    submitting it in the state left by the ones before it. *)
Lemma submit_all_lookup jobs s (i : nat) job :
  jobs !! i = Some job ->
  fst (submit_all jobs s) !! i
  = Some (fst (submit job (snd (submit_all (take i jobs) s)))).
Proof.
  intros Hi.
  rewrite <- (take_drop_middle jobs i job Hi) at 1.
  rewrite submit_all_app. cbn [fst].
  rewrite lookup_app_r; rewrite submit_all_length, length_take_le;
    try (apply lookup_lt_Some in Hi; lia).
  replace (i - i)%nat with O by lia.
  cbn [submit_all].
  destruct (submit job _) as [r s1]. by destruct (submit_all _ s1).
Qed.

(** C4.  A call of the queue's [handleMessage] first increments the window
    counter.  If the counter does not exceed the threshold, the message is
    run through the pipeline at once and the pipeline's result (outcome or
    error) is the result of the call; the buffer is left alone.  Otherwise
    the message is appended to the buffer and the call returns
    [{ delayed: true }] without touching the world.  With the threshold of
    50, of 75 messages submitted in one window the first 50 are run inline
    and the other 25 are in the buffer afterwards, in their order. *)
Theorem handleMessage_inline_or_buffered :
  (forall md s,
     (requestCount s + 1 <= queueService.RATE_LIMIT_THRESHOLD ->
        queueService.handleMessage md s
        = match queueService.processMessageDirectly md (world s) with
          | (Return out, w') =>
              (Return out, set_world (fun _ => w') (set_requestCount (fun n => n + 1) s))
          | (Throw error, w') =>
              (Throw error,
               set_world (fun _ => set_logs (fun ls =>
                            ls ++ ["Error handling message: " +:+ error_message error]) w')
                 (set_requestCount (fun n => n + 1) s))
          end)
     /\ (queueService.RATE_LIMIT_THRESHOLD < requestCount s + 1 ->
           queueService.handleMessage md s
           = (Return Delayed,
              set_delayedMessages (fun q => q ++ [md])
                (set_requestCount (fun n => n + 1) s))))
  /\ queueService.RATE_LIMIT_THRESHOLD = 50
  /\ (forall jobs s,
        List.length jobs = 75%nat ->
        requestCount s = 0 ->
        delayedMessages s = [] ->
        delayedMessages (snd (submit_all jobs s)) = map fst (drop 50 jobs)
        /\ List.length (delayedMessages (snd (submit_all jobs s))) = 25%nat
        /\ forall (i : nat) job,
             jobs !! i = Some job ->
             let si := snd (submit_all (take i jobs) s) in
             fst (submit_all jobs s) !! i = Some (fst (submit job si))
             /\ ((i < 50)%nat ->
                   fst (submit job si)
                   = fst (queueService.processMessageDirectly (fst job)
                            (in_env (snd job) (world si)))
                   /\ delayedMessages (snd (submit job si)) = [])
             /\ ((50 <= i)%nat ->
                   fst (submit job si) = Return Delayed
                   /\ world (snd (submit job si)) = in_env (snd job) (world si)
                   /\ delayedMessages (snd (submit job si))
                      = delayedMessages si ++ [fst job])).
Proof.
  split; [|split; [reflexivity|]].
  - intros md s. split; [apply handleMessage_inline | apply handleMessage_buffered].
  - intros jobs s Hlen Hc Hq.
    assert (Hbuf : delayedMessages (snd (submit_all jobs s)) = map fst (drop 50 jobs)).
    { rewrite submit_all_delayedMessages by lia. rewrite Hc, Hq. reflexivity. }
    split; [exact Hbuf|]. split.
    { rewrite Hbuf, length_map, length_drop. lia. }
    intros i job Hi si.
    assert (Hn : requestCount si = Z.of_nat i).
    { subst si. rewrite submit_all_requestCount, Hc, length_take_le; [lia|].
      apply lookup_lt_Some in Hi. lia. }
    split; [by apply submit_all_lookup|]. split.
    + intros Hlt. split.
      * unfold submit. rewrite handleMessage_inline.
        -- destruct si as [n q flag w ds att]. cbn [world set_world].
           by destruct (queueService.processMessageDirectly _ _) as [[out|error] w'].
        -- cbn. change queueService.RATE_LIMIT_THRESHOLD with 50.
           destruct si; cbn in *; lia.
      * rewrite submit_delayedMessages, Hn.
        change queueService.RATE_LIMIT_THRESHOLD with 50.
        replace (Z.of_nat i + 1 <=? 50) with true by (symmetry; apply Z.leb_le; lia).
        subst si. rewrite submit_all_delayedMessages by lia. rewrite Hc, Hq.
        change queueService.RATE_LIMIT_THRESHOLD with 50. cbn [app].
        rewrite drop_ge; [done|]. rewrite length_take. lia.
    + intros Hge. unfold submit. rewrite handleMessage_buffered.
      * by destruct si.
      * change queueService.RATE_LIMIT_THRESHOLD with 50.
        destruct si; cbn in *; lia.
Qed.

(** The 51st message of a window is buffered; of 75 messages in a fresh window 25 are. *)
Lemma handleMessage_inline_or_buffered_witness :
  let md := sample.text_from sample.alice "hi" in
  let w := sample.world_with 3 false false [] in
  let s := set_requestCount (fun _ => 50) (sample.sys_with w) in
  let jobs := replicate 75 (md, sample.env_with false []) in
  queueService.RATE_LIMIT_THRESHOLD < requestCount s + 1
  /\ queueService.handleMessage md s
     = (Return Delayed,
        set_delayedMessages (fun q => q ++ [md]) (set_requestCount (fun n => n + 1) s))
  /\ List.length jobs = 75%nat
  /\ List.length (delayedMessages (snd (submit_all jobs (sample.sys_with w)))) = 25%nat.
Proof.
  intros md w s jobs.
  assert (H : queueService.RATE_LIMIT_THRESHOLD < requestCount s + 1) by (vm_compute; reflexivity).
  assert (Hjobs : List.length jobs = 75%nat) by reflexivity.
  split; [exact H|].
  split; [exact (proj2 (proj1 handleMessage_inline_or_buffered md s) H)|].
  split; [exact Hjobs|].
  exact (proj1 (proj2 (proj2 (proj2 handleMessage_inline_or_buffered)
                         jobs (sample.sys_with w) Hjobs eq_refl eq_refl))).
Defined.

(** * The queue: drains *)

Ltac drain_step :=
  lazy beta iota zeta delta
      [step queueService.window_tick queueService.processDelayedMessages
       queueService.drain_loop queueService.pipeline_settles
       queueService.pacing_elapses in_world next_event
       fst snd requestCount delayedMessages processingDelayed world drains attempted
       set_requestCount set_delayedMessages set_processingDelayed set_world
       set_drains set_attempted andb negb].

Lemma handleMessage_drains md s :
  processingDelayed (snd (queueService.handleMessage md s)) = processingDelayed s
  /\ drains (snd (queueService.handleMessage md s)) = drains s
  /\ attempted (snd (queueService.handleMessage md s)) = attempted s.
Proof.
  destruct (Z_le_gt_dec (requestCount s + 1) queueService.RATE_LIMIT_THRESHOLD) as [Hle | Hgt].
  - rewrite handleMessage_inline by exact Hle.
    by destruct (queueService.processMessageDirectly _ _) as [[out|error] w'].
  - rewrite handleMessage_buffered by lia. done.
Qed.

(** The window tick, by cases. *)
Lemma window_tick_cases s :
  step WindowTick s
  = match delayedMessages s, processingDelayed s with
    | messageData :: rest, false =>
        {| requestCount := 0; delayedMessages := rest; processingDelayed := true;
           world := world s; drains := drains s ++ [AwaitPipeline messageData];
           attempted := attempted s ++ [messageData] |}
    | _, _ => set_requestCount (fun _ => 0) s
    end.
Proof. by destruct s as [n [| md rest] [] w ds att]. Qed.

Lemma drain_inv_step ev s : drain_inv s -> drain_inv (step ev s).
Proof.
  unfold drain_inv. intros Hs. destruct ev as [md e | | i e | i].
  - cbn [step].
    destruct (handleMessage_drains md (set_world (set_env (fun _ => e)) s)) as (-> & -> & _).
    exact Hs.
  - rewrite window_tick_cases.
    destruct Hs as [[Hflag Hds] | [Hflag [pc Hds]]]; rewrite Hflag;
      destruct (delayedMessages s) as [| md rest];
      cbn [processingDelayed drains set_requestCount]; rewrite Hds; cbn; eauto.
  - destruct s as [n q flag w ds att]. cbn [processingDelayed drains] in Hs.
    destruct Hs as [[-> ->] | [-> [pc ->]]]; [by left|].
    destruct i as [| i]; [|by right; eauto].
    destruct pc as [md|]; [|by right; eauto].
    drain_step. cbn [lookup list_lookup].
    destruct (queueService.processMessageDirectly md _) as [[out|error] w']; drain_step; cbn; eauto.
  - destruct s as [n q flag w ds att]. cbn [processingDelayed drains] in Hs.
    destruct Hs as [[-> ->] | [-> [pc ->]]]; [by left|].
    destruct i as [| i]; [|by right; eauto].
    destruct pc as [md|]; [by right; eauto|].
    destruct q as [| md rest]; drain_step; cbn; eauto.
Qed.

Lemma reachable_drain_inv s : reachable s -> drain_inv s.
Proof.
  induction 1 as [w | ev s _ IH]; [by left | by apply drain_inv_step].
Qed.

Lemma reachable_run evs s : reachable s -> reachable (run evs s).
Proof.
  unfold run. revert s. induction evs as [| ev evs IH]; intros s Hs; cbn [fold_left].
  - exact Hs.
  - apply IH. by constructor.
Qed.

(** A window tick while the flag is set resets the counter and nothing else. *)
Lemma window_tick_busy s :
  processingDelayed s = true ->
  step WindowTick s = set_requestCount (fun _ => 0) s.
Proof.
  intros Hflag. rewrite window_tick_cases, Hflag.
  by destruct (delayedMessages s).
Qed.

(** C5.  In every reachable state of the process at most one drain of the
    buffer is running, and one is running exactly when [processingDelayed]
    is set.  A window tick that fires while a drain is running resets the
    window counter and does nothing else: it starts no second drain and
    leaves the buffer as it is. *)
Theorem drains_never_overlap s :
  reachable s ->
  (List.length (drains s) <= 1)%nat
  /\ (drains s <> [] <-> processingDelayed s = true)
  /\ (drains s <> [] ->
        step WindowTick s = set_requestCount (fun _ => 0) s
        /\ drains (step WindowTick s) = drains s
        /\ delayedMessages (step WindowTick s) = delayedMessages s
        /\ attempted (step WindowTick s) = attempted s).
Proof.
  intros Hs. apply reachable_drain_inv in Hs.
  destruct Hs as [[Hflag Hds] | [Hflag [pc Hds]]]; rewrite Hds, Hflag.
  - split; [cbn; lia|]. split; [split; [done | discriminate]|]. done.
  - split; [cbn; lia|]. split; [done|]. intros _.
    rewrite window_tick_busy by exact Hflag.
    by rewrite <- Hds.
Qed.

(** After 51 submissions and a window tick a drain is running; a second tick leaves it alone. *)
Lemma drains_never_overlap_witness :
  let md := sample.text_from sample.alice "hi" in
  let s := run (replicate 51 (Submit md (sample.env_with false [])) ++ [WindowTick])
             (sample.sys_with (sample.world_with 3 false false [])) in
  reachable s
  /\ List.length (drains s) = 1%nat
  /\ processingDelayed s = true
  /\ drains (step WindowTick s) = drains s.
Proof.
  intros md s.
  assert (Hs : reachable s) by (apply reachable_run; constructor).
  assert (Hd : List.length (drains s) = 1%nat) by (vm_compute; reflexivity).
  destruct (drains_never_overlap s Hs) as (_ & Hflag & Htick).
  assert (Hne : drains s <> []) by (intros E; rewrite E in Hd; discriminate Hd).
  split; [exact Hs|]. split; [exact Hd|]. split; [by apply Hflag|].
  by apply Htick.
Defined.

(** C10.  Whenever a drain ends, be it because the buffer ran empty or
    because the processing of an entry threw, [processingDelayed] is
    [false] afterwards; a drain that ends on an error leaves the entries
    still in the buffer where they are.  Hence, in every reachable state
    without a running drain the flag is clear, and the next window tick
    starts a drain on the first buffered entry. *)
Theorem drain_end_clears_flag :
  (forall ev s,
     (List.length (drains (step ev s)) < List.length (drains s))%nat ->
     processingDelayed (step ev s) = false)
  /\ (forall i e s md error w',
        drains s !! i = Some (AwaitPipeline md) ->
        queueService.processMessageDirectly md (in_env e (world s)) = (Throw error, w') ->
        processingDelayed (step (PipelineSettles i e) s) = false
        /\ drains (step (PipelineSettles i e) s) = delete i (drains s)
        /\ delayedMessages (step (PipelineSettles i e) s) = delayedMessages s)
  /\ (forall s,
        reachable s ->
        drains s = [] ->
        processingDelayed s = false
        /\ forall md rest,
             delayedMessages s = md :: rest ->
             drains (step WindowTick s) = [AwaitPipeline md]
             /\ delayedMessages (step WindowTick s) = rest
             /\ processingDelayed (step WindowTick s) = true).
Proof.
  split; [|split].
  - intros ev s. destruct ev as [md e | | i e | i].
    + cbn [step].
      destruct (handleMessage_drains md (set_world (set_env (fun _ => e)) s)) as (_ & -> & _).
      cbn. lia.
    + rewrite window_tick_cases.
      destruct (delayedMessages s) as [| md rest], (processingDelayed s);
        cbn [drains set_requestCount]; rewrite ?length_app; lia.
    + destruct s as [n q flag w ds att]. drain_step.
      destruct (ds !! i) as [[md|]|] eqn:Hi; try lia.
      destruct (queueService.processMessageDirectly md _) as [[out|error] w']; drain_step.
      * rewrite length_insert. lia.
      * done.
    + destruct s as [n q flag w ds att]. drain_step.
      destruct (ds !! i) as [[md|]|] eqn:Hi; try lia.
      destruct q as [| md rest]; drain_step.
      * done.
      * rewrite length_insert. lia.
  - intros i e s md error w' Hi E.
    destruct s as [n q flag w ds att]. cbn [drains world] in Hi, E.
    drain_step. rewrite Hi.
    change (set_env (fun _ => e) w) with (in_env e w). rewrite E. done.
  - intros s Hs Hds. apply reachable_drain_inv in Hs.
    destruct Hs as [[Hflag _] | [_ [pc Hpc]]]; [|congruence].
    split; [exact Hflag|]. intros md rest Hq.
    rewrite window_tick_cases, Hq, Hflag, Hds. done.
Qed.

(** Two buffered messages; the drain started by the tick fails on the first one and ends with one message left in the buffer. *)
Lemma drain_end_clears_flag_witness :
  let md := sample.text_from sample.alice "hi" in
  let evs := replicate 52 (Submit md (sample.env_with false []))
             ++ [WindowTick; PipelineSettles 0 (sample.env_with false [true])] in
  let s := run evs (sample.sys_with (sample.world_with 3 false false [])) in
  reachable s
  /\ drains s = []
  /\ List.length (delayedMessages s) = 1%nat
  /\ processingDelayed s = false.
Proof.
  intros md evs s.
  assert (Hs : reachable s) by (apply reachable_run; constructor).
  assert (Hd : drains s = []) by (vm_compute; reflexivity).
  split; [exact Hs|]. split; [exact Hd|].
  split; [vm_compute; reflexivity|].
  exact (proj1 (proj2 (proj2 drain_end_clears_flag) s Hs Hd)).
Defined.

(** ** Every buffered entry is attempted *)

Lemma pump_step e s :
  drain_inv s ->
  let s1 := step (next_event e s) s in
  ((steps_left s1 < steps_left s)%nat \/ (steps_left s = O /\ steps_left s1 = O))
  /\ attempted s1 ++ delayedMessages s1 = attempted s ++ delayedMessages s.
Proof.
  intros Hs. destruct s as [n q flag w ds att].
  unfold drain_inv in Hs. cbn [processingDelayed drains] in Hs.
  destruct Hs as [[-> ->] | [-> [pc ->]]].
  - cbn [next_event drains]. rewrite window_tick_cases.
    destruct q as [| md rest]; cbn; [auto|].
    split; [left; lia | by rewrite <- app_assoc].
  - destruct pc as [md|].
    + cbn [next_event drains]. drain_step. cbn [lookup list_lookup].
      destruct (queueService.processMessageDirectly md _) as [[out|error] w'];
        drain_step; cbn; (split; [left | done]).
      * lia.
      * destruct q; cbn; lia.
    + cbn [next_event drains]. drain_step. cbn [lookup list_lookup].
      destruct q as [| md rest]; drain_step; cbn; (split; [left; lia |]).
      * done.
      * by rewrite <- app_assoc.
Qed.

Lemma pump_drains_buffer envs fuel s :
  drain_inv s ->
  (steps_left s <= fuel)%nat ->
  delayedMessages (pump envs fuel s) = []
  /\ drains (pump envs fuel s) = []
  /\ processingDelayed (pump envs fuel s) = false
  /\ attempted (pump envs fuel s) = attempted s ++ delayedMessages s.
Proof.
  revert s. induction fuel as [| k IH]; intros s Hs Hfuel; cbn [pump].
  - destruct Hs as [[Hflag Hds] | [_ [pc Hds]]]; unfold steps_left in Hfuel;
      rewrite Hds in Hfuel.
    + destruct (delayedMessages s) as [| md rest] eqn:Hq; [|lia].
      by rewrite app_nil_r.
    + destruct pc; lia.
  - destruct (pump_step (envs k) s Hs) as [Hcost Hatt].
    destruct (IH (step (next_event (envs k) s) s)) as (Hq & Hds & Hflag & Hres).
    + by apply drain_inv_step.
    + lia.
    + by rewrite Hres, Hatt.
Qed.

(** C6.  A pipeline failure on one buffered entry does not keep the
    entries behind it from being attempted.  When the processing of an
    entry throws, the drain ends, the failing entry is gone from the buffer
    and is not tried again, the entries behind it are still in the buffer,
    and the next window tick hands the first of them to the pipeline.  With
    window ticks and resumptions taking their turns, a buffer of [n]
    entries is empty after at most [2 n + 1] steps, every entry having been
    handed to the pipeline exactly once, in order, whichever of them
    failed. *)
Theorem failed_entry_does_not_block_later_entries :
  (forall envs fuel s,
     drains s = [] ->
     processingDelayed s = false ->
     (2 * List.length (delayedMessages s) + 1 <= fuel)%nat ->
     delayedMessages (pump envs fuel s) = []
     /\ drains (pump envs fuel s) = []
     /\ attempted (pump envs fuel s) = attempted s ++ delayedMessages s)
  /\ (forall e s md next rest error w',
        drains s = [AwaitPipeline md] ->
        delayedMessages s = next :: rest ->
        queueService.processMessageDirectly md (in_env e (world s)) = (Throw error, w') ->
        let s1 := step (PipelineSettles 0 e) s in
        let s2 := step WindowTick s1 in
        delayedMessages s1 = next :: rest
        /\ drains s1 = []
        /\ attempted s1 = attempted s
        /\ drains s2 = [AwaitPipeline next]
        /\ delayedMessages s2 = rest
        /\ attempted s2 = attempted s ++ [next]).
Proof.
  split.
  - intros envs fuel s Hds Hflag Hfuel.
    destruct (pump_drains_buffer envs fuel s) as (Hq & Hds' & _ & Hatt); [by left | | done].
    unfold steps_left. rewrite Hds.
    destruct (delayedMessages s); cbn [List.length] in *; lia.
  - intros e s md next rest error w' Hds Hq E s1 s2.
    assert (H1 : s1 = {| requestCount := requestCount s; delayedMessages := next :: rest;
                         processingDelayed := false;
                         world := set_logs (fun ls =>
                                    ls ++ ["Error processing delayed messages: "
                                           +:+ error_message error]) w';
                         drains := []; attempted := attempted s |}).
    { subst s1. destruct s as [n q flag w ds att].
      cbn [drains delayedMessages world] in Hds, Hq, E. subst ds q.
      drain_step. cbn [lookup list_lookup].
      change (set_env (fun _ => e) w) with (in_env e w). rewrite E. done. }
    subst s2. rewrite window_tick_cases, H1. done.
Qed.

(** Two buffered messages, both of which fail in the pipeline: both are attempted. *)
Lemma failed_entry_does_not_block_later_entries_witness :
  let md := sample.text_from sample.alice "hi" in
  let s := run (replicate 52 (Submit md (sample.env_with false [])))
             (sample.sys_with (sample.world_with 3 false false [])) in
  let failing := fun _ : nat => sample.env_with false [true] in
  drains s = []
  /\ processingDelayed s = false
  /\ List.length (delayedMessages s) = 2%nat
  /\ List.length (logs (world (pump failing 5 s))) = 6%nat
  /\ delayedMessages (pump failing 5 s) = []
  /\ attempted (pump failing 5 s) = attempted s ++ delayedMessages s.
Proof.
  intros md s failing.
  assert (Hds : drains s = []) by (vm_compute; reflexivity).
  assert (Hflag : processingDelayed s = false) by (vm_compute; reflexivity).
  assert (Hlen : List.length (delayedMessages s) = 2%nat) by (vm_compute; reflexivity).
  destruct (proj1 failed_entry_does_not_block_later_entries failing 5%nat s Hds Hflag)
    as (Hq & _ & Hatt); [rewrite Hlen; lia|].
  split; [exact Hds|]. split; [exact Hflag|]. split; [exact Hlen|].
  split; [vm_compute; reflexivity|]. split; [exact Hq | exact Hatt].
Defined.

(** * Entitlement reconciliation *)

Lemma findOrCreateUser_frame userId w :
  messages (snd (databaseService.findOrCreateUser userId w)) = messages w
  /\ outbox (snd (databaseService.findOrCreateUser userId w)) = outbox w
  /\ ai_calls (snd (databaseService.findOrCreateUser userId w)) = ai_calls w.
Proof. open_world w. exec; done. Qed.

Lemma updateSubscription_outcome userId b w :
  match fst (databaseService.updateSubscription userId b w) with
  | Return _ =>
      users (snd (databaseService.updateSubscription userId b w))
      = alter (fun r => {| user_id := user_id r; message_count := message_count r;
                           is_subscribed := b |}) userId (users w)
  | Throw error =>
      users (snd (databaseService.updateSubscription userId b w)) = users w
      /\ logs (snd (databaseService.updateSubscription userId b w))
         = logs w ++ ["Error updating subscription: " +:+ error_message error]
  end
  /\ messages (snd (databaseService.updateSubscription userId b w)) = messages w
  /\ outbox (snd (databaseService.updateSubscription userId b w)) = outbox w
  /\ ai_calls (snd (databaseService.updateSubscription userId b w)) = ai_calls w.
Proof.
  open_world w. exec; repeat split; done.
Qed.

(** No service but [updateSubscription] changes a stored flag. *)
Lemma findOrCreateUser_flag userId w u b :
  flag_of u w = Some b ->
  flag_of u (snd (databaseService.findOrCreateUser userId w)) = Some b.
Proof.
  unfold flag_of.
  destruct (findOrCreateUser_users userId w) as [-> | [Hnone ->]]; [done|].
  destruct (decide (userId = u)) as [<- | Hne].
  - by rewrite Hnone.
  - by rewrite lookup_insert_ne.
Qed.

Lemma incrementMessageCount_flag userId w u b :
  flag_of u w = Some b ->
  flag_of u (snd (databaseService.incrementMessageCount userId w)) = Some b.
Proof.
  unfold flag_of. open_world w. cbn [users].
  destruct (decide (userId = u)) as [<- | Hne]; intros Hb.
  - destruct (us !! userId) as [r|] eqn:Hu; [|done].
    destruct r as [uid cnt flag]. cbn in Hb. simplify_eq.
    exec; cbn; rewrite ?lookup_alter_eq, ?Hu; cbn; try done.
    all: simplify_eq.
    all: repeat match goal with H : _ !! _ = _ |- _ => rewrite H end; done.
  - exec; cbn; rewrite ?lookup_alter_ne, ?lookup_insert_ne by done; done.
Qed.

Lemma sendText_flag to text w u :
  flag_of u (snd (whatsapp.sendText to text w)) = flag_of u w.
Proof. unfold flag_of. open_world w. exec; done. Qed.

Lemma getConversationContext_flag userId w u :
  flag_of u (snd (databaseService.getConversationContext userId w)) = flag_of u w.
Proof. unfold flag_of. open_world w. exec; done. Qed.

Lemma generateResponse_flag prompt w u :
  flag_of u (snd (model.generateResponse prompt w)) = flag_of u w.
Proof. unfold flag_of. open_world w. exec; done. Qed.

Lemma saveMessage_flag userId a b w u :
  flag_of u (snd (databaseService.saveMessage userId a b w)) = flag_of u w.
Proof. unfold flag_of. open_world w. exec; done. Qed.

Ltac flag_facts :=
  repeat match goal with
    | H : databaseService.incrementMessageCount ?i ?w = _ |- _ =>
        let F := fresh "F" in
        pose proof (incrementMessageCount_flag i w) as F; rewrite H in F; clear H
    | H : whatsapp.sendText ?i ?t ?w = _ |- _ =>
        let F := fresh "F" in
        pose proof (sendText_flag i t w) as F; rewrite H in F; clear H
    | H : databaseService.getConversationContext ?i ?w = _ |- _ =>
        let F := fresh "F" in
        pose proof (getConversationContext_flag i w) as F; rewrite H in F; clear H
    | H : model.generateResponse ?p ?w = _ |- _ =>
        let F := fresh "F" in
        pose proof (generateResponse_flag p w) as F; rewrite H in F; clear H
    | H : databaseService.saveMessage ?i ?x ?y ?w = _ |- _ =>
        let F := fresh "F" in
        pose proof (saveMessage_flag i x y w) as F; rewrite H in F; clear H
    end;
  cbn [fst snd] in *.

Lemma reconciliation_outcome md w user w1 :
  from_controller md ->
  databaseService.findOrCreateUser (from md) w = (Return (Some user), w1) ->
  is_subscribed user <> stripe_active (env w) (from md) ->
  let r := queueService.processMessageDirectly md w in
  match databaseService.updateSubscription (from md) (stripe_active (env w) (from md)) w1 with
  | (Return _, _) =>
      flag_of (from md) (snd r) = Some (stripe_active (env w) (from md))
  | (Throw error, w2) =>
      r = (Throw error,
           set_logs (fun ls => ls ++ ["Error in direct processing: " +:+ error_message error]) w2)
  end.
Proof.
  destruct md as [msg frm ty h]. unfold from_controller. cbn [handlers from].
  intros -> E1 Hdiff. cbv zeta.
  pose proof (findOrCreateUser_returned _ _ _ _ E1) as Hrow.
  pose proof (updateSubscription_outcome frm (stripe_active (env w) frm) w1) as Hupd.
  assert (Hb : is_subscribed user = negb (stripe_active (env w) frm)).
  { destruct (is_subscribed user), (stripe_active (env w) frm); done. }
  clear Hdiff. pipe_step. rewrite E1. pipe_step. rewrite Hb.
  set (b := stripe_active (env w) frm) in *. clearbody b.
  destruct (databaseService.updateSubscription frm b w1) as [[[]|error] w2] eqn:E2;
    cbn [fst snd] in Hupd; [| by destruct b; pipe_step; rewrite E2].
  assert (Hflag : flag_of frm w2 = Some b).
  { unfold flag_of. destruct Hupd as [-> _]. by rewrite lookup_alter_eq, Hrow. }
  clear E1 Hupd Hrow.
  destruct b; pipe_step; rewrite E2; clear E2; pipe_step;
    repeat (case_step; pipe_step);
    flag_facts;
    change (flag_of frm (set_logs ?f ?x)) with (flag_of frm x);
    repeat match goal with
      | F : forall u : string, _ |- _ => specialize (F frm)
      end;
    repeat match goal with
      | F : forall c : bool, flag_of ?u ?x = Some c -> _, H : flag_of ?u ?x = Some ?c0 |- _ =>
          specialize (F c0 H)
      end;
    congruence.
Qed.

(** C8, as stated, fails.  The stored flag of the user is [false], Stripe
    reports a subscription, and the update of the flag fails (the second
    external call; the first, the lookup of the user's row, succeeds).  The
    pipeline rethrows the error: the count is not incremented, no message
    is sent and the Responder is not called. *)
Lemma reconciliation_failure_aborts_the_message :
  let w := sample.world_with 3 false true [false; true] in
  let r := queueService.processMessageDirectly (sample.text_from sample.alice "hi") w in
  flag_of sample.alice w <> Some (stripe_active (env w) sample.alice)
  /\ fst r = Throw (PostgrestError "request failed")
  /\ count_of sample.alice (snd r) <> count_of sample.alice w + 1
  /\ count_of sample.alice (snd r) = 3
  /\ flag_of sample.alice (snd r) = Some false
  /\ outbox (snd r) = []
  /\ ai_calls (snd r) = []
  /\ logs (snd r) = ["Error updating subscription: request failed";
                     "Error in direct processing: request failed"].
Proof. vm_compute. repeat split; discriminate. Qed.

(** C8, amended.  For a sender who has a row, returned by the lookup:
    when the fetched entitlement differs from the stored flag of the row,
    the pipeline updates the flag before it counts the message.  If the
    update succeeds the corrected flag is stored, whatever happens to the
    rest of the run.  If the update fails, the
    failure is logged and ends the run: the pipeline rethrows the error
    of the update, the message is not counted, nothing is sent to the
    sender, the Responder is not called and no turn is saved. *)
Theorem reconciliation_persists_or_aborts md w user w1 :
  from_controller md ->
  databaseService.findOrCreateUser (from md) w = (Return (Some user), w1) ->
  is_subscribed user <> stripe_active (env w) (from md) ->
  let r := queueService.processMessageDirectly md w in
  match databaseService.updateSubscription (from md)
          (stripe_active (env w) (from md)) w1 with
  | (Return _, _) =>
      flag_of (from md) (snd r) = Some (stripe_active (env w) (from md))
  | (Throw error, w2) =>
      fst r = Throw error
      /\ logs (snd r)
         = logs w1 ++ ["Error updating subscription: " +:+ error_message error]
                   ++ ["Error in direct processing: " +:+ error_message error]
      /\ (forall u, count_of u (snd r) = count_of u w)
      /\ flag_of (from md) (snd r) = Some (is_subscribed user)
      /\ outbox (snd r) = outbox w
      /\ ai_calls (snd r) = ai_calls w
      /\ messages (snd r) = messages w
  end.
Proof.
  intros Hmd E1 Hdiff r.
  pose proof (reconciliation_outcome md w user w1 Hmd E1 Hdiff) as H.
  pose proof (updateSubscription_outcome (from md) (stripe_active (env w) (from md)) w1) as Hupd.
  pose proof (findOrCreateUser_frame (from md) w) as Hframe.
  pose proof (findOrCreateUser_count (from md) w) as Hcount.
  pose proof (findOrCreateUser_returned _ _ _ _ E1) as Hrow.
  rewrite E1 in Hframe, Hcount. cbn [snd] in Hframe, Hcount.
  cbv zeta in H.
  destruct (databaseService.updateSubscription _ _ w1) as [[[]|error] w2]; [exact H|].
  subst r. rewrite H. cbn [fst snd] in *.
  destruct Hupd as ((Hus & Hlogs) & Hms & Hob & Hai), Hframe as (Hms' & Hob' & Hai').
  split; [done|]. split; [cbn [logs set_logs]; by rewrite Hlogs, <- app_assoc|].
  split; [intros u; unfold count_of in *; cbn [users set_logs]; rewrite Hus; apply Hcount|].
  split; [unfold flag_of; cbn [users set_logs]; by rewrite Hus, Hrow|].
  cbn [outbox ai_calls messages set_logs]. by rewrite Hob, Hai, Hms.
Qed.

(** Stored flag [false], Stripe reports a subscription, the update fails. *)
Lemma reconciliation_persists_or_aborts_witness :
  let md := sample.text_from sample.alice "hi" in
  let user := {| user_id := sample.alice; message_count := 3; is_subscribed := false |} in
  let w := sample.world_with 3 false true [false; true] in
  let w1 := sample.world_with 3 false true [true] in
  from_controller md
  /\ databaseService.findOrCreateUser (from md) w = (Return (Some user), w1)
  /\ is_subscribed user <> stripe_active (env w) (from md)
  /\ fst (queueService.processMessageDirectly md w) = Throw supabase.request_failed
  /\ count_of sample.alice (snd (queueService.processMessageDirectly md w)) = 3
  /\ outbox (snd (queueService.processMessageDirectly md w)) = [].
Proof.
  intros md user w w1.
  assert (Hmd : from_controller md) by reflexivity.
  assert (E1 : databaseService.findOrCreateUser (from md) w = (Return (Some user), w1))
    by reflexivity.
  assert (Hdiff : is_subscribed user <> stripe_active (env w) (from md))
    by (cbn; discriminate).
  pose proof (reconciliation_persists_or_aborts md w user w1 Hmd E1 Hdiff) as H.
  cbv zeta in H.
  change (databaseService.updateSubscription (from md) (stripe_active (env w) (from md)) w1)
    with (@Throw unit supabase.request_failed,
          set_logs (fun ls => ls ++ ["Error updating subscription: request failed"])
            (sample.world_with 3 false true [])) in H.
  destruct H as (Hr & _ & Hc & _ & Hob & _).
  split; [exact Hmd|]. split; [exact E1|]. split; [exact Hdiff|].
  split; [exact Hr|]. split; [exact (Hc sample.alice) | exact Hob].
Defined.


(** * The conversation context *)

#[local] Instance newer_first_transitive : Transitive supabase.newer_first.
Proof. unfold supabase.newer_first. intros a b c. lia. Qed.

#[local] Instance newer_first_total : Total supabase.newer_first.
Proof. unfold supabase.newer_first. intros a b. lia. Qed.

Lemma map_reverse {A B} (f : A -> B) (l : list A) :
  reverse (map f l) = map f (reverse l).
Proof.
  induction l as [| a l IH]; [done|].
  cbn [map]. by rewrite !reverse_cons, map_app, IH.
Qed.

(** The rows that the query selects: the ten newest, newest first. *)
Lemma messages_select_recent_rows userId w :
  fails_at 0 w = false ->
  fst (databaseService.getConversationContext userId w)
  = Return (map turn_of
              (reverse (take 10 (merge_sort supabase.newer_first (conversation userId w))))).
Proof.
  unfold fails_at, conversation. open_world w. cbn [env faults messages]. intros H0.
  destruct fs as [| [] fs]; try discriminate; run_step; by rewrite map_reverse.
Qed.

(** C9.  When its query succeeds, [getConversationContext] returns the
    [role] and [content] of at most [contextMessageLimit] = 10 rows of the
    user's conversation: of ten rows if the user has that many, of all
    rows otherwise.  No row left out is newer than a row returned, and the
    returned rows are in chronological order, oldest first. *)
Theorem getConversationContext_recent_oldest_first userId w :
  fails_at 0 w = false ->
  exists older recent,
    fst (databaseService.getConversationContext userId w) = Return (map turn_of recent)
    /\ older ++ recent ≡ₚ conversation userId w
    /\ List.length recent = Nat.min 10 (List.length (conversation userId w))
    /\ Z.of_nat (List.length recent) <= botConfig.ai.contextMessageLimit
    /\ Sorted oldest_first recent
    /\ (forall o r, o ∈ older -> r ∈ recent -> created_at o <= created_at r).
Proof.
  intros H0.
  set (sorted := merge_sort supabase.newer_first (conversation userId w)).
  assert (Hperm : sorted ≡ₚ conversation userId w) by apply merge_sort_Permutation.
  assert (Hsorted : StronglySorted supabase.newer_first (take 10 sorted ++ drop 10 sorted)).
  { rewrite take_drop. apply StronglySorted_merge_sort; apply _. }
  assert (Hlen : List.length (reverse (take 10 sorted))
                 = Nat.min 10 (List.length (conversation userId w))).
  { rewrite length_reverse, length_take, <- (Permutation_length Hperm). lia. }
  exists (drop 10 sorted), (reverse (take 10 sorted)).
  split; [by apply messages_select_recent_rows|].
  split; [by rewrite reverse_Permutation, Permutation_app_comm, take_drop|].
  split; [exact Hlen|].
  split; [rewrite Hlen; change botConfig.ai.contextMessageLimit with 10; lia|].
  split.
  - apply (Sorted_reverse supabase.newer_first).
    apply StronglySorted_Sorted. by apply StronglySorted_app_1_l in Hsorted.
  - intros o r Ho Hr. rewrite elem_of_reverse in Hr.
    exact (StronglySorted_app_1_elem_of _ _ _ r o Hsorted Hr Ho).
Qed.

(** Twelve rows of one user and one row of another. *)
Lemma getConversationContext_recent_oldest_first_witness :
  let w := set_messages (fun _ =>
             map (fun k => sample.row sample.alice (Z.of_nat k) "user" "m") (seq 0 12)
             ++ [sample.row "31600000002" 5 "user" "other"])
             (sample.world_with 3 false false []) in
  fails_at 0 w = false
  /\ exists older recent,
       fst (databaseService.getConversationContext sample.alice w)
       = Return (map turn_of recent)
       /\ older ++ recent ≡ₚ conversation sample.alice w
       /\ List.length recent = Nat.min 10 (List.length (conversation sample.alice w))
       /\ Z.of_nat (List.length recent) <= botConfig.ai.contextMessageLimit
       /\ Sorted oldest_first recent
       /\ (forall o r, o ∈ older -> r ∈ recent -> created_at o <= created_at r).
Proof.
  intros w. split; [reflexivity|].
  exact (getConversationContext_recent_oldest_first sample.alice w eq_refl).
Defined.

(** The same on a table of four rows of one user and a row of another
    user, listed out of order. *)
Example getConversationContext_example :
  let w := set_messages (fun _ =>
             [ sample.row sample.alice 7 "user" "c"; sample.row sample.alice 8 "assistant" "d";
               sample.row "31600000002" 9 "user" "x";
               sample.row sample.alice 2 "user" "a"; sample.row sample.alice 3 "assistant" "b" ])
             (sample.world_with 3 false false []) in
  fst (databaseService.getConversationContext sample.alice w)
  = Return [ {| turn_role := "user"; turn_content := "a" |};
             {| turn_role := "assistant"; turn_content := "b" |};
             {| turn_role := "user"; turn_content := "c" |};
             {| turn_role := "assistant"; turn_content := "d" |} ].
Proof. vm_compute. reflexivity. Qed.

(** * Failure of the Responder *)

(** Whatever goes wrong inside the [try] block of the controller, its
    [catch] block ends in a [ReferenceError]: the block reads [from]
    before it sends anything. *)
Lemma controller_catch_throws req s :
  match fst (messageController.handleMessage req s) with
  | Return _ => True
  | Throw e => e = ReferenceError "from is not defined"
  end.
Proof.
  unfold messageController.handleMessage, try_catch.
  match goal with |- context [match ?body s with _ => _ end] => destruct (body s) as [[out|error] s1] end.
  - done.
  - unfold bind, in_world, logger.error, modify, throw. done.
Qed.

(** In the pipeline a failing Responder ends the run before anything is
    sent or saved. *)
Lemma pipeline_responder_fails :
  let w := sample.world_with 30 false false [false; false; false; false; true] in
  let r := queueService.processMessageDirectly (sample.text_from sample.alice "hi") w in
  fst r = Throw (GenerationError "completion failed")
  /\ ai_calls (snd r) = [queueService.text_prompt EmptyString "hi"]
  /\ messages (snd r) = []
  /\ outbox (snd r) = [].
Proof. vm_compute. repeat split. Qed.

(** C7, evaluated on the code.  A text message of a user over the free
    limit and without subscription is processed inline, and the Responder
    fails (the fifth external call; the four database calls before it
    succeed).  No turn is saved and the failure propagates to the
    controller.  There the [catch] block evaluates [from], a [const] of the
    [try] block that is out of scope: the block throws a [ReferenceError]
    before it reaches [whatsapp.sendText(from, botConfig.errors.general)],
    and the sender receives nothing. *)
Theorem responder_failure_sends_no_apology :
  let s := sample.sys_with
             (sample.world_with 30 false false [false; false; false; false; true]) in
  let r := messageController.handleMessage (sample.text_request sample.alice "hi") s in
  fst r = Throw (ReferenceError "from is not defined")
  /\ ai_calls (world (snd r)) = [queueService.text_prompt EmptyString "hi"]
  /\ messages (world (snd r)) = []
  /\ outbox (world (snd r)) = []
  /\ logs (world (snd r))
     = [ "Error in direct processing: completion failed";
         "Error handling message: completion failed";
         "Error processing message: completion failed";
         "completion failed" ].
Proof. vm_compute. repeat split. Qed.

(** * The message count *)

(** ** Promises that run alone *)

Lemma run_alone_on_settle {S A B} (t : Async S A) (k : Completion A -> Async S B) s :
  run_alone (on_settle t k) s
  = match run_alone t s with (r, s1) => run_alone (k r) s1 end.
Proof.
  revert s. induction t as [r | C act k' IH | C call k' IH]; intros s;
    cbn [on_settle run_alone]; [done | destruct (act s) | destruct (call s)]; apply IH.
Qed.

Lemma run_alone_abind {S A B} (t : Async S A) (k : A -> Async S B) s :
  run_alone (abind t k) s = bind (run_alone t) (fun a => run_alone (k a)) s.
Proof.
  unfold abind, bind. rewrite run_alone_on_settle.
  by destruct (run_alone t s) as [[a|e] s1].
Qed.

Lemma run_alone_try {S A} (t : Async S A) (h : JsError -> Async S A) s :
  run_alone (atry_catch t h) s = try_catch (run_alone t) (fun e => run_alone (h e)) s.
Proof.
  unfold atry_catch, try_catch. rewrite run_alone_on_settle.
  by destruct (run_alone t s) as [[a|e] s1].
Qed.

Lemma run_alone_all2 {S A B} (a : Async S A) (b : Async S B) s :
  run_alone (apromise_all2 a b) s = promise_all2 (run_alone a) (run_alone b) s.
Proof.
  unfold apromise_all2, promise_all2. rewrite run_alone_on_settle.
  destruct (run_alone a s) as [ra s1]. rewrite run_alone_on_settle.
  destruct (run_alone b s1) as [rb s2]. by destruct ra, rb.
Qed.

Lemma run_alone_await {S A} (call : M S A) s : run_alone (await_ call) s = call s.
Proof. cbn. by destruct (call s). Qed.

Lemma run_alone_sync {S A} (act : M S A) s : run_alone (sync act) s = act s.
Proof. cbn. by destruct (act s). Qed.

Lemma bind_ext {S A B} (c c' : M S A) (k k' : A -> M S B) :
  (forall s, c s = c' s) -> (forall a s, k a s = k' a s) ->
  forall s, bind c k s = bind c' k' s.
Proof.
  intros Hc Hk s. unfold bind. rewrite Hc.
  destruct (c' s) as [[a|e] s1]; [apply Hk | done].
Qed.

Lemma try_catch_ext {S A} (c c' : M S A) (h h' : JsError -> M S A) :
  (forall s, c s = c' s) -> (forall e s, h e s = h' e s) ->
  forall s, try_catch c h s = try_catch c' h' s.
Proof.
  intros Hc Hh s. unfold try_catch. rewrite Hc.
  destruct (c' s) as [[a|e] s1]; [done | apply Hh].
Qed.

Lemma promise_all2_ext {S A B} (a a' : M S A) (b b' : M S B) :
  (forall s, a s = a' s) -> (forall s, b s = b' s) ->
  forall s, promise_all2 a b s = promise_all2 a' b' s.
Proof.
  intros Ha Hb s. unfold promise_all2. rewrite Ha.
  destruct (a' s) as [ra s1]. by rewrite Hb.
Qed.

Create HintDb alone discriminated.
#[local] Hint Resolve run_alone_await run_alone_sync : alone.

Ltac alone_step :=
  first
    [ reflexivity
    | solve [auto with alone]
    | rewrite run_alone_abind; apply bind_ext; intros
    | rewrite run_alone_try; apply try_catch_ext; intros
    | rewrite run_alone_all2; apply promise_all2_ext; intros
    | match goal with
      | |- run_alone (match ?x with _ => _ end) _ = _ => destruct x
      end ].

Ltac alone := repeat alone_step.

Lemma run_alone_findOrCreateUser userId w :
  run_alone (Concurrent.databaseService.findOrCreateUser userId) w
  = databaseService.findOrCreateUser userId w.
Proof.
  unfold Concurrent.databaseService.findOrCreateUser, databaseService.findOrCreateUser.
  alone.
Qed.
#[local] Hint Resolve run_alone_findOrCreateUser : alone.

Lemma run_alone_incrementMessageCount userId w :
  run_alone (Concurrent.databaseService.incrementMessageCount userId) w
  = databaseService.incrementMessageCount userId w.
Proof.
  unfold Concurrent.databaseService.incrementMessageCount,
    databaseService.incrementMessageCount.
  alone.
Qed.

Lemma run_alone_updateSubscription userId b w :
  run_alone (Concurrent.databaseService.updateSubscription userId b) w
  = databaseService.updateSubscription userId b w.
Proof.
  unfold Concurrent.databaseService.updateSubscription, databaseService.updateSubscription.
  alone.
Qed.

Lemma run_alone_getConversationContext userId w :
  run_alone (Concurrent.databaseService.getConversationContext userId) w
  = databaseService.getConversationContext userId w.
Proof.
  unfold Concurrent.databaseService.getConversationContext,
    databaseService.getConversationContext.
  alone.
Qed.

Lemma run_alone_saveMessage userId a b w :
  run_alone (Concurrent.databaseService.saveMessage userId a b) w
  = databaseService.saveMessage userId a b w.
Proof.
  unfold Concurrent.databaseService.saveMessage, databaseService.saveMessage.
  alone.
Qed.
#[local] Hint Resolve run_alone_incrementMessageCount run_alone_updateSubscription
  run_alone_getConversationContext run_alone_saveMessage : alone.


(** ** Runs that overlap *)








(** * Further properties of the code *)

(** ** The webhook routes *)

(** X1.  The verification route echoes the challenge with status 200
    exactly when [hub.mode] is the string [subscribe] and [hub.verify_token]
    is a non-empty string equal to the configured [WHATSAPP_VERIFY_TOKEN];
    it answers 400 exactly when one of the two is missing or empty, and 403
    in every other case.  With the variable unset or empty no request is
    ever verified. *)
Theorem get_whatsapp_verifies_only_the_configured_token
    (VERIFY_TOKEN : option string) (mode token challenge : webhookRoutes.QueryValue) :
  let reply := webhookRoutes.get_whatsapp VERIFY_TOKEN mode token challenge in
  (reply = webhookRoutes.Send 200 challenge
   <-> mode = webhookRoutes.QString "subscribe"
       /\ exists t, t <> EmptyString /\ token = webhookRoutes.QString t /\ VERIFY_TOKEN = Some t)
  /\ (reply = webhookRoutes.SendStatus 400
      <-> webhookRoutes.truthy mode = false \/ webhookRoutes.truthy token = false)
  /\ (reply = webhookRoutes.Send 200 challenge
      \/ reply = webhookRoutes.SendStatus 400
      \/ reply = webhookRoutes.SendStatus 403)
  /\ (VERIFY_TOKEN = None \/ VERIFY_TOKEN = Some EmptyString ->
      reply <> webhookRoutes.Send 200 challenge).
Proof.
  intros reply.
  assert (Hverified :
    reply = webhookRoutes.Send 200 challenge
    <-> mode = webhookRoutes.QString "subscribe"
        /\ exists t, t <> EmptyString /\ token = webhookRoutes.QString t /\ VERIFY_TOKEN = Some t).
  { subst reply. unfold webhookRoutes.get_whatsapp. split.
    - destruct (webhookRoutes.truthy mode) eqn:Hm, (webhookRoutes.truthy token) eqn:Ht;
        cbn [andb]; try discriminate.
      destruct mode as [| m |]; cbn [webhookRoutes.is_string andb]; try discriminate.
      destruct (String.eqb_spec m "subscribe") as [-> | Hne]; cbn [andb]; [|discriminate].
      destruct token as [| t |], VERIFY_TOKEN as [v|];
        cbn [webhookRoutes.is_env webhookRoutes.truthy] in *; try discriminate.
      destruct (String.eqb_spec t v) as [-> | Hne]; [|discriminate].
      intros _. split; [done|]. exists v. split; [|done].
      intros ->. discriminate.
    - intros (-> & t & Ht & -> & ->).
      cbn [webhookRoutes.truthy webhookRoutes.is_string webhookRoutes.is_env].
      rewrite !String.eqb_refl.
      destruct t; [done|]. reflexivity. }
  split; [exact Hverified|]. split; [|split].
  - subst reply. unfold webhookRoutes.get_whatsapp.
    destruct (webhookRoutes.truthy mode), (webhookRoutes.truthy token); cbn [andb];
      try (split; [auto | done]).
    destruct (_ && _); split; try discriminate; intros [?|?]; discriminate.
  - subst reply. unfold webhookRoutes.get_whatsapp.
    destruct (_ && _); [destruct (_ && _)|]; auto.
  - intros Hunset Hreply. apply Hverified in Hreply as (_ & t & Ht & _ & Hv).
    destruct Hunset as [Hn | Hn]; rewrite Hn in Hv; [discriminate|].
    injection Hv as <-. done.
Qed.

(** The configured token, presented in subscribe mode. *)
Lemma get_whatsapp_verifies_only_the_configured_token_witness :
  webhookRoutes.get_whatsapp (Some "secret") (webhookRoutes.QString "subscribe")
    (webhookRoutes.QString "secret") (webhookRoutes.QString "1158201444")
  = webhookRoutes.Send 200 (webhookRoutes.QString "1158201444")
  /\ webhookRoutes.get_whatsapp None (webhookRoutes.QString "subscribe")
       (webhookRoutes.QString "secret") (webhookRoutes.QString "1158201444")
     <> webhookRoutes.Send 200 (webhookRoutes.QString "1158201444").
Proof.
  split.
  - apply (proj1 (get_whatsapp_verifies_only_the_configured_token (Some "secret")
                    (webhookRoutes.QString "subscribe") (webhookRoutes.QString "secret")
                    (webhookRoutes.QString "1158201444"))).
    split; [reflexivity|]. exists "secret". repeat split. discriminate.
  - apply (proj2 (proj2 (proj2 (get_whatsapp_verifies_only_the_configured_token None
                    (webhookRoutes.QString "subscribe") (webhookRoutes.QString "secret")
                    (webhookRoutes.QString "1158201444"))))).
    left. reflexivity.
Defined.

(** X2.  The POST route never rejects and always answers 200.  When the
    controller returns, the process is in the state the controller left;
    when the controller fails, whatever the cause, the route logs
    ["from is not defined"], the message of the [ReferenceError] thrown by
    the controller's [catch] block, and goes on. *)
Theorem post_whatsapp_always_acknowledges req s :
  exists s',
    webhookRoutes.post_whatsapp req s = (Return 200, s')
    /\ match messageController.handleMessage req s with
       | (Return _, s1) => s' = s1
       | (Throw _, s1) =>
           s' = set_world (fun w => set_logs (fun ls =>
                  ls ++ ["Error handling WhatsApp message: from is not defined"]) w) s1
       end.
Proof.
  pose proof (controller_catch_throws req s) as Hcatch.
  unfold webhookRoutes.post_whatsapp, bind, try_catch, ret.
  destruct (messageController.handleMessage req s) as [[out|error] s1];
    cbn [fst] in Hcatch.
  - eauto.
  - subst error. destruct s1 as [n q flag w ds att].
    eexists. split; reflexivity.
Qed.

(** ** The controller *)

Ltac ctl_step :=
  lazy beta iota zeta delta
      [messageController.handleMessage media.isBlockedCountry
       media.transcribeAudio media.downloadImageFromWhatsApp
       whatsapp.sendText logger.error next_fault
       bind ret throw try_catch gets modify member read_member in_world
       fst snd users messages clock outbox ai_calls logs env faults
       blocked_country transcript_of media_url_of
       set_users set_messages set_clock set_outbox set_ai_calls set_logs
       set_env set_faults
       requestCount delayedMessages processingDelayed world drains attempted
       set_requestCount set_delayedMessages set_processingDelayed set_world
       set_drains set_attempted
       msg_from msg_type text_body audio_id image_id image_caption
       negb orb andb].

Ltac open_sys s :=
  let w := fresh "w" in
  destruct s as [?n ?q ?flag w ?ds ?att]; open_world w.

(** X3.  A message from a blocked country is answered with the
    blocked-country text and nothing else happens: the queue is not
    entered, the tables are not touched and the Responder is not called. *)
Theorem blocked_sender_is_only_told_so message s :
  blocked_country (env (world s)) (msg_from message) = true ->
  fails_at 0 (world s) = false ->
  let r := messageController.handleMessage (Some message) s in
  fst r = Return None
  /\ outbox (world (snd r))
     = outbox (world s) ++ [(msg_from message, botConfig.access.blockedCountries.message)]
  /\ requestCount (snd r) = requestCount s
  /\ delayedMessages (snd r) = delayedMessages s
  /\ users (world (snd r)) = users (world s)
  /\ messages (world (snd r)) = messages (world s)
  /\ ai_calls (world (snd r)) = ai_calls (world s).
Proof.
  unfold fails_at. open_sys s. destruct message as [frm ty body aid iid cap].
  cbn [world env blocked_country faults msg_from]. intros Hblocked Hsend.
  ctl_step. rewrite Hblocked.
  destruct fs as [| [] fs]; try discriminate; ctl_step; done.
Qed.

(** X4.  A message whose type is not [text], [audio] or [image] is
    answered with the unsupported-type text and goes no further: the queue
    is not entered, the tables are not touched and the Responder is not
    called. *)
Theorem unsupported_type_is_only_told_so message s :
  blocked_country (env (world s)) (msg_from message) = false ->
  msg_type message <> "text" ->
  msg_type message <> "audio" ->
  msg_type message <> "image" ->
  fails_at 0 (world s) = false ->
  let r := messageController.handleMessage (Some message) s in
  fst r = Return None
  /\ outbox (world (snd r))
     = outbox (world s) ++ [(msg_from message, botConfig.errors.unsupportedType)]
  /\ requestCount (snd r) = requestCount s
  /\ delayedMessages (snd r) = delayedMessages s
  /\ users (world (snd r)) = users (world s)
  /\ messages (world (snd r)) = messages (world s)
  /\ ai_calls (world (snd r)) = ai_calls (world s).
Proof.
  unfold fails_at. open_sys s. destruct message as [frm ty body aid iid cap].
  cbn [world env blocked_country faults msg_from msg_type].
  intros Hblocked Htext Haudio Himage Hsend.
  apply String.eqb_neq in Htext, Haudio, Himage.
  ctl_step. rewrite Hblocked, Htext, Haudio, Himage.
  destruct fs as [| [] fs]; try discriminate; ctl_step; done.
Qed.

(** A sender from a blocked country, in a fresh process. *)
Lemma blocked_sender_is_only_told_so_witness :
  let message := {| msg_from := sample.alice; msg_type := "text"; text_body := "hi";
                    audio_id := EmptyString; image_id := EmptyString;
                    image_caption := None |} in
  let e := {| faults := []; stripe_active := fun _ => false; ai_reply := fun _ => "reply";
              transcript_of := fun _ => EmptyString; media_url_of := fun _ => EmptyString;
              blocked_country := fun _ => true |} in
  let s := sample.sys_with (set_env (fun _ => e) empty_world) in
  let r := messageController.handleMessage (Some message) s in
  blocked_country (env (world s)) (msg_from message) = true
  /\ fst r = Return None
  /\ outbox (world (snd r))
     = outbox (world s) ++ [(msg_from message, botConfig.access.blockedCountries.message)]
  /\ requestCount (snd r) = requestCount s.
Proof.
  intros message e s r.
  destruct (blocked_sender_is_only_told_so message s eq_refl eq_refl)
    as (Hr & Hout & Hn & _).
  split; [reflexivity|]. split; [exact Hr|]. split; [exact Hout | exact Hn].
Defined.

(** A video message. *)
Lemma unsupported_type_is_only_told_so_witness :
  let message := {| msg_from := sample.alice; msg_type := "video"; text_body := EmptyString;
                    audio_id := EmptyString; image_id := EmptyString;
                    image_caption := None |} in
  let s := sample.sys_with (sample.world_with 3 false false []) in
  let r := messageController.handleMessage (Some message) s in
  msg_type message <> "text"
  /\ fst r = Return None
  /\ outbox (world (snd r))
     = outbox (world s) ++ [(msg_from message, botConfig.errors.unsupportedType)]
  /\ ai_calls (world (snd r)) = ai_calls (world s).
Proof.
  intros message s r.
  assert (Htext : msg_type message <> "text") by discriminate.
  assert (Haudio : msg_type message <> "audio") by discriminate.
  assert (Himage : msg_type message <> "image") by discriminate.
  destruct (unsupported_type_is_only_told_so message s eq_refl Htext Haudio Himage eq_refl)
    as (Hr & Hout & _ & _ & _ & _ & Hai).
  split; [exact Htext|]. split; [exact Hr|]. split; [exact Hout | exact Hai].
Defined.

(** ** The prompt of an image message *)

Lemma append_cons (ch : ascii) (a b : string) : String ch a +:+ b = String ch (a +:+ b).
Proof. reflexivity. Qed.

Lemma append_empty (b : string) : EmptyString +:+ b = b.
Proof. reflexivity. Qed.



Lemma substring_all (s : string) : String.substring 0 (String.length s) s = s.
Proof.
  induction s as [| ch s IH]; [done|].
  cbn [String.length String.substring]. by f_equal.
Qed.









(** ** The database service *)

Ltac db_step :=
  lazy beta iota zeta delta
      [databaseService.findOrCreateUser databaseService.incrementMessageCount
       databaseService.updateSubscription databaseService.getConversationContext
       databaseService.saveMessage databaseService.checkSubscription
       supabase.users_select_maybeSingle supabase.users_insert_single
       supabase.users_update_message_count supabase.users_update_is_subscribed
       supabase.messages_select_recent supabase.messages_insert
       supabase.users_select_single supabase.request_failed
       logger.error
       bind ret throw try_catch gets modify member read_member next_fault
       fst snd users messages clock outbox ai_calls logs env faults
       set_users set_messages set_clock set_outbox
       set_ai_calls set_logs set_env set_faults
       negb orb andb user_id message_count is_subscribed].

Ltac db_exec := db_step; repeat (case_step; db_step).

(** X7.  [findOrCreateUser] returns the stored row of a user who has one
    and changes nothing.  For a user without a row it inserts a row with a
    count of 0 and no subscription and returns [null], the insert being
    sent without [.select()].  The row is stored afterwards, so that asking
    again returns it and changes nothing.  Every other row is left
    alone. *)
Theorem findOrCreateUser_creates_once userId w user w1 :
  databaseService.findOrCreateUser userId w = (Return user, w1) ->
  (forall other, other <> userId -> users w1 !! other = users w !! other)
  /\ match users w !! userId with
     | Some stored => user = Some stored /\ users w1 = users w
     | None =>
         user = None
         /\ users w1 !! userId
            = Some {| user_id := userId; message_count := 0; is_subscribed := false |}
     end
  /\ (fails_at 0 w1 = false ->
      is_Some (users w1 !! userId)
      /\ fst (databaseService.findOrCreateUser userId w1) = Return (users w1 !! userId)
      /\ users (snd (databaseService.findOrCreateUser userId w1)) = users w1).
Proof.
  intros E. pose proof (findOrCreateUser_result userId w) as H.
  rewrite E in H. cbn [fst snd] in H.
  assert (Hnow : is_Some (users w1 !! userId)
                 /\ (forall other, other <> userId -> users w1 !! other = users w !! other)
                 /\ match users w !! userId with
                    | Some stored => user = Some stored /\ users w1 = users w
                    | None =>
                        user = None
                        /\ users w1 !! userId
                           = Some {| user_id := userId; message_count := 0;
                                     is_subscribed := false |}
                    end).
  { destruct user as [u|]; destruct H as [Hu ->]; rewrite Hu.
    - split; [by eexists|]. split; [done|]. done.
    - rewrite lookup_insert_eq. split; [by eexists|].
      split; [intros other Hne; by rewrite lookup_insert_ne|]. done. }
  destruct Hnow as ([row Hrow] & Hothers & Hwho).
  split; [exact Hothers|]. split; [exact Hwho|].
  clear E H Hothers Hwho. revert Hrow. unfold fails_at. open_world w1.
  cbn [users env faults]. intros Hrow Hfault.
  split; [by eexists|].
  destruct fs as [| [] fs]; try discriminate; db_step; rewrite Hrow; done.
Qed.

(** X8.  After [updateSubscription] has succeeded for a user who has a
    row, [checkSubscription] returns the flag that was written; the counts
    of all users and the flags of all other users are as before. *)
Theorem updateSubscription_then_checkSubscription userId b w w1 :
  is_Some (users w !! userId) ->
  databaseService.updateSubscription userId b w = (Return tt, w1) ->
  (fails_at 0 w1 = false -> fst (databaseService.checkSubscription userId w1) = Return b)
  /\ (forall u, count_of u w1 = count_of u w)
  /\ (forall u, u <> userId -> flag_of u w1 = flag_of u w).
Proof.
  intros [stored Hstored] E.
  pose proof (updateSubscription_outcome userId b w) as [Hout _].
  pose proof (updateSubscription_count userId b w) as Hcount.
  rewrite E in Hout, Hcount. cbn [fst snd] in Hout, Hcount.
  split; [|split; [exact Hcount|]].
  - assert (Hrow : is_subscribed <$> users w1 !! userId = Some b).
    { rewrite Hout, lookup_alter_eq, Hstored. done. }
    clear E Hout Hcount. revert Hrow. unfold fails_at. open_world w1.
    cbn [users env faults]. intros Hrow Hfault.
    destruct (us !! userId) as [r|] eqn:Hr; [|done].
    cbn in Hrow. injection Hrow as Hrow.
    destruct fs as [| [] fs]; try discriminate; db_step; rewrite Hr; db_step;
      by destruct r; cbn in Hrow; subst.
  - intros u Hne. unfold flag_of. by rewrite Hout, lookup_alter_ne.
Qed.

(** X9.  The two functions differ on a user without a row:
    [checkSubscription] throws (and logs), whereas [updateSubscription]
    returns normally and stores nothing, so that the flag it was given is
    lost. *)
Theorem subscription_of_unknown_user userId b w :
  users w !! userId = None ->
  fails_at 0 w = false ->
  (exists error,
     fst (databaseService.checkSubscription userId w) = Throw error
     /\ logs (snd (databaseService.checkSubscription userId w))
        = logs w ++ ["Error checking subscription: " +:+ error_message error])
  /\ fst (databaseService.updateSubscription userId b w) = Return tt
  /\ users (snd (databaseService.updateSubscription userId b w)) = users w.
Proof.
  unfold fails_at. open_world w. cbn [users env faults logs]. intros Hnone Hfault.
  assert (Halter : forall f : UserRow -> UserRow, alter f userId us = us).
  { intros f. apply map_eq. intros k. rewrite lookup_alter.
    case_decide; [subst; by rewrite Hnone | done]. }
  destruct fs as [| [] fs]; try discriminate; db_step; rewrite ?Hnone; db_step;
    (split; [eexists; split; reflexivity|]); (split; [done | apply Halter]).
Qed.

Lemma incrementMessageCount_once userId w :
  faults (env w) = [] ->
  is_Some (users w !! userId) ->
  0 <= count_of userId w ->
  count_of userId w + 1 <= supabase.INT4_MAX ->
  fst (databaseService.incrementMessageCount userId w) = Return (count_of userId w + 1)
  /\ count_of userId (snd (databaseService.incrementMessageCount userId w))
     = count_of userId w + 1
  /\ faults (env (snd (databaseService.incrementMessageCount userId w))) = []
  /\ is_Some (users (snd (databaseService.incrementMessageCount userId w)) !! userId).
Proof.
  intros Hfs Hrow Hlo Hhi.
  assert (Hret : (exists n, fst (databaseService.incrementMessageCount userId w) = Return n)
                 /\ faults (env (snd (databaseService.incrementMessageCount userId w))) = []
                 /\ is_Some (users (snd (databaseService.incrementMessageCount userId w))
                             !! userId)).
  { revert Hfs Hrow Hlo Hhi. unfold count_of, supabase.INT4_MAX. open_world w.
    cbn [users env faults]. intros -> [[uid cnt flag] Hu] Hlo Hhi.
    rewrite Hu in Hlo, Hhi. cbn [message_count] in Hlo, Hhi.
    db_step. rewrite Hu. db_step.
    replace (supabase.INT4_MAX <? cnt + 1) with false
      by (symmetry; apply Z.ltb_ge; unfold supabase.INT4_MAX; lia).
    replace (cnt + 1 <? - supabase.INT4_MAX - 1) with false
      by (symmetry; apply Z.ltb_ge; unfold supabase.INT4_MAX; lia).
    db_step. split; [eauto|]. split; [done|].
    rewrite lookup_alter_eq, Hu. by eexists. }
  destruct Hret as ([n Hn] & Hfs' & Hrow').
  pose proof (incrementMessageCount_count userId w) as [_ H].
  rewrite Hn in H. destruct H as [-> H]. by rewrite Hn.
Qed.

Lemma incrementMessageCount_times userId (n : nat) w :
  faults (env w) = [] ->
  is_Some (users w !! userId) ->
  0 <= count_of userId w ->
  count_of userId w + Z.of_nat n <= supabase.INT4_MAX ->
  exists w',
    times n (databaseService.incrementMessageCount userId) w
    = (Return (map (fun k => count_of userId w + Z.of_nat k) (seq 1 n)), w')
    /\ count_of userId w' = count_of userId w + Z.of_nat n.
Proof.
  revert w. induction n as [| n IH]; intros w Hfs Hrow Hlo Hhi.
  - exists w. split; [done | lia].
  - destruct (incrementMessageCount_once userId w Hfs Hrow Hlo ltac:(lia))
      as (Hr & Hc & Hfs' & Hrow').
    cbn [times]. unfold bind at 1.
    destruct (databaseService.incrementMessageCount userId w) as [[c|e] w1];
      cbn [fst snd] in Hr, Hc, Hfs', Hrow'; [|discriminate].
    injection Hr as ->.
    destruct (IH w1 Hfs' Hrow' ltac:(lia) ltac:(lia)) as (w2 & E & Hc2).
    assert (Hl : map (fun k => count_of userId w1 + Z.of_nat k) (seq 1 n)
                 = map (fun k => count_of userId w + Z.of_nat k) (seq 2 n)).
    { rewrite <- (seq_shift n 1), map_map. apply map_ext. intros k. lia. }
    rewrite Hl in E.
    unfold bind. rewrite E. exists w2. split; [|lia].
    cbn [seq map]. replace (count_of userId w + Z.of_nat 1) with (count_of userId w + 1) by lia.
    reflexivity.
Qed.

(** X10.  For a user who has a row, [n] increments in a row, none of them
    failing, return the [n] counts that follow the stored one and leave
    the stored count higher by [n], as long as the count stays within the
    INTEGER column. *)
Theorem incrementMessageCount_n_times userId (n : nat) w :
  faults (env w) = [] ->
  is_Some (users w !! userId) ->
  0 <= count_of userId w ->
  count_of userId w + Z.of_nat n <= supabase.INT4_MAX ->
  let r := times n (databaseService.incrementMessageCount userId) w in
  fst r = Return (map (fun k => count_of userId w + Z.of_nat k) (seq 1 n))
  /\ count_of userId (snd r) = count_of userId w + Z.of_nat n.
Proof.
  intros Hfs Hrow Hlo Hhi r.
  destruct (incrementMessageCount_times userId n w Hfs Hrow Hlo Hhi) as (w' & E & Hc).
  subst r. by rewrite E.
Qed.

(** ** Saving turns and reading them back *)

Lemma saveMessage_outcome userId a b w :
  match fst (databaseService.saveMessage userId a b w) with
  | Return _ =>
      messages (snd (databaseService.saveMessage userId a b w))
      = messages w ++ saved_rows userId a b (clock w)
  | Throw error =>
      messages (snd (databaseService.saveMessage userId a b w)) = messages w
      /\ logs (snd (databaseService.saveMessage userId a b w))
         = logs w ++ ["Error saving messages: " +:+ error_message error]
  end.
Proof. open_world w. db_exec; done. Qed.

Lemma filter_none {A} (P : A -> Prop) `{forall x, Decision (P x)} (l : list A) :
  Forall (fun x => ~ P x) l -> filter P l = [].
Proof.
  induction 1 as [| x l Hx _ IH]; [done|].
  by rewrite filter_cons_False.
Qed.

Lemma filter_all {A} (P : A -> Prop) `{forall x, Decision (P x)} (l : list A) :
  Forall P l -> filter P l = l.
Proof.
  induction 1 as [| x l Hx _ IH]; [done|].
  rewrite filter_cons_True by done. by f_equal.
Qed.

Lemma conversation_saved userId a b w w1 :
  messages w1 = messages w ++ saved_rows userId a b (clock w) ->
  conversation userId w1 = conversation userId w ++ saved_rows userId a b (clock w)
  /\ forall other, other <> userId -> conversation other w1 = conversation other w.
Proof.
  intros Hm. unfold conversation. rewrite Hm. split.
  - rewrite filter_app. f_equal. apply filter_all. unfold saved_rows. by repeat constructor.
  - intros other Hne. rewrite filter_app.
    rewrite (filter_none _ (saved_rows userId a b (clock w))); [by rewrite app_nil_r|].
    unfold saved_rows. repeat constructor; cbn; congruence.
Qed.

(** In a list sorted newest first the rows from a given time on come
    first. *)
Lemma newest_first_split (bound : Z) (l : list MessageRow) :
  StronglySorted supabase.newer_first l ->
  l = filter (fun r => bound <= created_at r) l
      ++ filter (fun r => ~ bound <= created_at r) l.
Proof.
  induction 1 as [| x l Hl IH Hx]; [done|].
  destruct (decide (bound <= created_at x)) as [Hin | Hout].
  - rewrite filter_cons_True by done.
    rewrite (filter_cons_False (fun r => ~ bound <= created_at r)) by tauto.
    cbn [app]. by f_equal.
  - rewrite filter_cons_False by done. rewrite filter_cons_True by done.
    rewrite filter_none.
    + cbn [app]. f_equal. symmetry. apply filter_all.
      eapply Forall_impl; [exact Hx|]. unfold supabase.newer_first. cbn. lia.
    + eapply Forall_impl; [exact Hx|]. unfold supabase.newer_first. cbn. lia.
Qed.

(** X11.  The two turns that [saveMessage] has stored are the last two of
    the context read back afterwards (in the order in which the database
    returns rows of equal [created_at]), after at most eight earlier
    turns, provided that the rows already stored for the user are older
    than the database clock. *)
Theorem saved_turns_end_the_context userId a b w w1 :
  databaseService.saveMessage userId a b w = (Return tt, w1) ->
  (forall r, r ∈ conversation userId w -> created_at r < clock w) ->
  fails_at 0 w1 = false ->
  exists earlier last,
    fst (databaseService.getConversationContext userId w1) = Return (earlier ++ last)
    /\ last ≡ₚ [ {| turn_role := "user"; turn_content := a |};
                 {| turn_role := "assistant"; turn_content := b |} ]
    /\ List.length earlier = Nat.min 8 (List.length (conversation userId w)).
Proof.
  intros E Hold Hfault.
  pose proof (saveMessage_outcome userId a b w) as Hsave.
  rewrite E in Hsave. cbn [fst snd] in Hsave.
  destruct (conversation_saved userId a b w w1 Hsave) as [Hconv _].
  set (bound := clock w) in *.
  set (sorted := merge_sort supabase.newer_first (conversation userId w1)).
  assert (Hperm : sorted ≡ₚ conversation userId w ++ saved_rows userId a b bound).
  { subst sorted. by rewrite merge_sort_Permutation, Hconv. }
  assert (Hsorted : StronglySorted supabase.newer_first sorted).
  { apply StronglySorted_merge_sort; apply _. }
  assert (Holder : Forall (fun r => ~ bound <= created_at r) (conversation userId w)).
  { apply Forall_forall. intros r Hr. specialize (Hold r Hr). lia. }
  assert (Hnew : Forall (fun r => bound <= created_at r) (saved_rows userId a b bound)).
  { unfold saved_rows. repeat constructor; cbn; lia. }
  pose (top := filter (fun r => bound <= created_at r) sorted).
  pose (rest := filter (fun r => ~ bound <= created_at r) sorted).
  assert (Htop : top ≡ₚ saved_rows userId a b bound).
  { subst top. rewrite Hperm, filter_app.
    rewrite (filter_none _ _ Holder), (filter_all _ _ Hnew). done. }
  assert (Hrest : rest ≡ₚ conversation userId w).
  { subst rest. rewrite Hperm, filter_app.
    rewrite filter_all by (eapply Forall_impl; [exact Holder | done]).
    rewrite filter_none by (eapply Forall_impl; [exact Hnew | cbn; tauto]).
    by rewrite app_nil_r. }
  assert (Hsplit : sorted = top ++ rest) by (by apply newest_first_split).
  assert (Hlen : List.length top = 2%nat) by (by rewrite Htop).
  exists (map turn_of (reverse (take 8 rest))), (map turn_of (reverse top)).
  split; [|split].
  - rewrite (messages_select_recent_rows userId w1 Hfault).
    fold sorted. rewrite Hsplit, take_app_ge by lia. rewrite Hlen.
    change (10 - 2)%nat with 8%nat. by rewrite reverse_app, map_app.
  - rewrite reverse_Permutation, Htop. done.
  - rewrite length_map, length_reverse, length_take, Hrest. lia.
Qed.

(** X12.  Turns saved for one user do not show in the context of another
    user: where the query succeeds before and after, it returns the same
    turns. *)
Theorem saved_turns_stay_with_their_user userId other a b w w1 :
  other <> userId ->
  databaseService.saveMessage userId a b w = (Return tt, w1) ->
  fails_at 0 w = false ->
  fails_at 0 w1 = false ->
  fst (databaseService.getConversationContext other w1)
  = fst (databaseService.getConversationContext other w).
Proof.
  intros Hne E Hw Hw1.
  pose proof (saveMessage_outcome userId a b w) as Hsave.
  rewrite E in Hsave. cbn [fst snd] in Hsave.
  destruct (conversation_saved userId a b w w1 Hsave) as [_ Hconv].
  rewrite (messages_select_recent_rows other w1 Hw1),
          (messages_select_recent_rows other w Hw), (Hconv other Hne).
  done.
Qed.

(** A first request for a user without a row, and a second one. *)
Lemma findOrCreateUser_creates_once_witness :
  let bob := "31600000002" in
  let w := sample.world_with 3 false false [] in
  let fresh := {| user_id := bob; message_count := 0; is_subscribed := false |} in
  let w1 := snd (databaseService.findOrCreateUser bob w) in
  databaseService.findOrCreateUser bob w = (Return None, w1)
  /\ users w1 !! bob = Some fresh
  /\ count_of sample.alice w1 = 3
  /\ fst (databaseService.findOrCreateUser bob w1) = Return (users w1 !! bob).
Proof.
  intros bob w fresh w1.
  assert (E : databaseService.findOrCreateUser bob w = (Return None, w1)) by reflexivity.
  destruct (findOrCreateUser_creates_once bob w None w1 E) as (Hothers & Hwho & Hagain).
  split; [exact E|]. split; [exact (proj2 Hwho)|]. split.
  - unfold count_of. rewrite (Hothers sample.alice); [reflexivity | discriminate].
  - exact (proj1 (proj2 (Hagain eq_refl))).
Defined.

(** The flag of [alice] is set. *)
Lemma updateSubscription_then_checkSubscription_witness :
  let w := sample.world_with 3 false false [] in
  let w1 := snd (databaseService.updateSubscription sample.alice true w) in
  is_Some (users w !! sample.alice)
  /\ databaseService.updateSubscription sample.alice true w = (Return tt, w1)
  /\ fst (databaseService.checkSubscription sample.alice w1) = Return true
  /\ count_of sample.alice w1 = count_of sample.alice w.
Proof.
  intros w w1.
  assert (Hrow : is_Some (users w !! sample.alice)) by (eexists; reflexivity).
  assert (E : databaseService.updateSubscription sample.alice true w = (Return tt, w1))
    by reflexivity.
  destruct (updateSubscription_then_checkSubscription sample.alice true w w1 Hrow E)
    as (Hcheck & Hcount & _).
  split; [exact Hrow|]. split; [exact E|]. split; [exact (Hcheck eq_refl) | apply Hcount].
Defined.

(** Nobody but [alice] has a row. *)
Lemma subscription_of_unknown_user_witness :
  let bob := "31600000002" in
  let w := sample.world_with 3 false false [] in
  users w !! bob = None
  /\ fst (databaseService.updateSubscription bob true w) = Return tt
  /\ users (snd (databaseService.updateSubscription bob true w)) = users w.
Proof.
  intros bob w.
  destruct (subscription_of_unknown_user bob true w eq_refl eq_refl) as (_ & Hret & Hsame).
  split; [reflexivity|]. split; [exact Hret | exact Hsame].
Defined.

(** Three increments from a count of 3. *)
Lemma incrementMessageCount_n_times_witness :
  let w := sample.world_with 3 false false [] in
  let r := times 3 (databaseService.incrementMessageCount sample.alice) w in
  is_Some (users w !! sample.alice)
  /\ count_of sample.alice w + Z.of_nat 3 <= supabase.INT4_MAX
  /\ fst r = Return (map (fun k => count_of sample.alice w + Z.of_nat k) (seq 1 3))
  /\ count_of sample.alice (snd r) = count_of sample.alice w + Z.of_nat 3.
Proof.
  intros w r.
  assert (Hrow : is_Some (users w !! sample.alice)) by (eexists; reflexivity).
  assert (H0 : 0 <= count_of sample.alice w) by (by apply Z.leb_le).
  assert (Hmax : count_of sample.alice w + Z.of_nat 3 <= supabase.INT4_MAX)
    by (by apply Z.leb_le).
  split; [exact Hrow|]. split; [exact Hmax|].
  exact (incrementMessageCount_n_times sample.alice 3 w eq_refl Hrow H0 Hmax).
Defined.

(** A first exchange is saved and read back. *)
Lemma saved_turns_end_the_context_witness :
  let w := sample.world_with 3 false false [] in
  let w1 := snd (databaseService.saveMessage sample.alice "hi" "hello" w) in
  databaseService.saveMessage sample.alice "hi" "hello" w = (Return tt, w1)
  /\ exists earlier last,
       fst (databaseService.getConversationContext sample.alice w1) = Return (earlier ++ last)
       /\ last ≡ₚ [ {| turn_role := "user"; turn_content := "hi" |};
                    {| turn_role := "assistant"; turn_content := "hello" |} ]
       /\ List.length earlier = Nat.min 8 (List.length (conversation sample.alice w)).
Proof.
  intros w w1.
  assert (E : databaseService.saveMessage sample.alice "hi" "hello" w = (Return tt, w1))
    by reflexivity.
  assert (Hold : forall r, r ∈ conversation sample.alice w -> created_at r < clock w).
  { intros r Hr. exact (False_ind _ (proj1 (elem_of_nil r) Hr)). }
  split; [exact E|].
  exact (saved_turns_end_the_context sample.alice "hi" "hello" w w1 E Hold eq_refl).
Defined.

(** What [alice] saves does not show for another user. *)
Lemma saved_turns_stay_with_their_user_witness :
  let bob := "31600000002" in
  let w := sample.world_with 3 false false [] in
  let w1 := snd (databaseService.saveMessage sample.alice "hi" "hello" w) in
  bob <> sample.alice
  /\ databaseService.saveMessage sample.alice "hi" "hello" w = (Return tt, w1)
  /\ fst (databaseService.getConversationContext bob w1)
     = fst (databaseService.getConversationContext bob w).
Proof.
  intros bob w w1.
  assert (Hne : bob <> sample.alice) by discriminate.
  assert (E : databaseService.saveMessage sample.alice "hi" "hello" w = (Return tt, w1))
    by reflexivity.
  split; [exact Hne|]. split; [exact E|].
  exact (saved_turns_stay_with_their_user sample.alice bob "hi" "hello" w w1
           Hne E eq_refl eq_refl).
Defined.

(** ** What a run of the pipeline leaves behind *)

Lemma findOrCreateUser_effect userId w :
  messages (snd (databaseService.findOrCreateUser userId w)) = messages w
  /\ outbox (snd (databaseService.findOrCreateUser userId w)) = outbox w
  /\ ai_calls (snd (databaseService.findOrCreateUser userId w)) = ai_calls w
  /\ clock (snd (databaseService.findOrCreateUser userId w)) = clock w.
Proof. open_world w. db_exec; done. Qed.

Lemma updateSubscription_effect userId b w :
  messages (snd (databaseService.updateSubscription userId b w)) = messages w
  /\ outbox (snd (databaseService.updateSubscription userId b w)) = outbox w
  /\ ai_calls (snd (databaseService.updateSubscription userId b w)) = ai_calls w
  /\ clock (snd (databaseService.updateSubscription userId b w)) = clock w.
Proof. open_world w. db_exec; done. Qed.

Lemma incrementMessageCount_effect userId w :
  messages (snd (databaseService.incrementMessageCount userId w)) = messages w
  /\ outbox (snd (databaseService.incrementMessageCount userId w)) = outbox w
  /\ ai_calls (snd (databaseService.incrementMessageCount userId w)) = ai_calls w
  /\ clock (snd (databaseService.incrementMessageCount userId w)) = clock w.
Proof. open_world w. db_exec; done. Qed.

Lemma getConversationContext_effect userId w :
  messages (snd (databaseService.getConversationContext userId w)) = messages w
  /\ outbox (snd (databaseService.getConversationContext userId w)) = outbox w
  /\ ai_calls (snd (databaseService.getConversationContext userId w)) = ai_calls w
  /\ clock (snd (databaseService.getConversationContext userId w)) = clock w.
Proof. open_world w. db_exec; done. Qed.

Lemma sendText_effect to text w :
  messages (snd (whatsapp.sendText to text w)) = messages w
  /\ ai_calls (snd (whatsapp.sendText to text w)) = ai_calls w
  /\ clock (snd (whatsapp.sendText to text w)) = clock w
  /\ match fst (whatsapp.sendText to text w) with
     | Return _ => outbox (snd (whatsapp.sendText to text w)) = outbox w ++ [(to, text)]
     | Throw _ => outbox (snd (whatsapp.sendText to text w)) = outbox w
     end.
Proof. open_world w. exec; done. Qed.

Lemma generateResponse_effect prompt w :
  messages (snd (model.generateResponse prompt w)) = messages w
  /\ outbox (snd (model.generateResponse prompt w)) = outbox w
  /\ clock (snd (model.generateResponse prompt w)) = clock w
  /\ ai_calls (snd (model.generateResponse prompt w)) = ai_calls w ++ [prompt].
Proof. open_world w. exec; done. Qed.

Lemma saveMessage_effect userId a b w :
  outbox (snd (databaseService.saveMessage userId a b w)) = outbox w
  /\ ai_calls (snd (databaseService.saveMessage userId a b w)) = ai_calls w
  /\ match fst (databaseService.saveMessage userId a b w) with
     | Return _ =>
         messages (snd (databaseService.saveMessage userId a b w))
         = messages w ++ saved_rows userId a b (clock w)
     | Throw _ => messages (snd (databaseService.saveMessage userId a b w)) = messages w
     end.
Proof. open_world w. db_exec; done. Qed.

Ltac split_all :=
  repeat match goal with H : _ /\ _ |- _ => destruct H end.

Ltac effect_facts :=
  repeat match goal with
    | H : databaseService.findOrCreateUser ?i ?w = _ |- _ =>
        let F := fresh "F" in
        pose proof (findOrCreateUser_effect i w) as F; rewrite H in F; clear H
    | H : databaseService.updateSubscription ?i ?b ?w = _ |- _ =>
        let F := fresh "F" in
        pose proof (updateSubscription_effect i b w) as F; rewrite H in F; clear H
    | H : databaseService.incrementMessageCount ?i ?w = _ |- _ =>
        let F := fresh "F" in
        pose proof (incrementMessageCount_effect i w) as F; rewrite H in F; clear H
    | H : whatsapp.sendText ?i ?t ?w = _ |- _ =>
        let F := fresh "F" in
        pose proof (sendText_effect i t w) as F; rewrite H in F; clear H
    | H : databaseService.getConversationContext ?i ?w = _ |- _ =>
        let F := fresh "F" in
        pose proof (getConversationContext_effect i w) as F; rewrite H in F; clear H
    | H : model.generateResponse ?p ?w = _ |- _ =>
        let F := fresh "F" in
        pose proof (generateResponse_effect p w) as F; rewrite H in F; clear H
    | H : databaseService.saveMessage ?i ?a ?b ?w = _ |- _ =>
        let F := fresh "F" in
        pose proof (saveMessage_effect i a b w) as F; rewrite H in F; clear H
    end;
  cbn [fst snd] in *; split_all.

(** X13.  A run of the pipeline that returns an outcome has delivered to
    the sender exactly the text of that outcome.  With the outcome
    [subscription_required] the text is the configured upsell message, the
    Responder was not called and no turn was saved; with the outcome
    [success] the Responder was called once and exactly two turns were
    saved, the user's message and the reply that was delivered.  There is
    no other outcome. *)
Theorem pipeline_outcome_effects md w :
  from_controller md ->
  let r := queueService.processMessageDirectly md w in
  match fst r with
  | Return (Status status text) =>
      outbox (snd r) = outbox w ++ [(from md, text)]
      /\ ((status = "subscription_required"
           /\ text = botConfig.subscription.messages.expired
           /\ ai_calls (snd r) = ai_calls w
           /\ messages (snd r) = messages w)
          \/ (status = "success"
              /\ (exists prompt, ai_calls (snd r) = ai_calls w ++ [prompt])
              /\ messages (snd r)
                 = messages w
                   ++ saved_rows (from md) (messageContent (message md)) text (clock w)))
  | Return Delayed => False
  | Throw _ => True
  end.
Proof.
  destruct md as [msg frm ty h]. unfold from_controller. cbn [handlers from message]. intros ->.
  cbv zeta.
  pipe; try exact I; effect_facts;
    change (outbox (set_logs ?f ?x)) with (outbox x);
    repeat match goal with
      | H : ?x = _ |- context [?x] => rewrite H
      end;
    (split; [reflexivity|]);
    first [ left; repeat split; reflexivity
          | right; split; [reflexivity|]; split; [eexists; reflexivity | reflexivity] ].
Qed.

(** A run that ends with the outcome [success]. *)
Lemma pipeline_outcome_effects_witness :
  let md := sample.text_from sample.alice "hi" in
  let w := sample.world_with 10 false false [] in
  let r := queueService.processMessageDirectly md w in
  from_controller md
  /\ fst r = Return (Status "success" "reply")
  /\ outbox (snd r) = outbox w ++ [(from md, "reply")].
Proof.
  intros md w r.
  assert (Hmd : from_controller md) by reflexivity.
  assert (E : fst r = Return (Status "success" "reply")) by (vm_compute; reflexivity).
  pose proof (pipeline_outcome_effects md w Hmd) as H.
  cbv zeta in H. fold r in H. rewrite E in H.
  split; [exact Hmd|]. split; [exact E | exact (proj1 H)].
Defined.

(** X14.  [Promise.all] does not cancel: when the delivery of the reply
    fails while the insert of the two turns succeeds, the run throws the
    error of the delivery, and the turns, the reply among them, are saved
    although the sender has received nothing.  (The sender is over the free
    limit and not subscribed; the two lookups of the row, the update of the
    count, the read of the context and the call of the Responder
    succeed.) *)
Theorem undelivered_reply_is_saved md w user rest :
  from_controller md ->
  users w !! from md = Some user ->
  is_subscribed user = false ->
  stripe_active (env w) (from md) = false ->
  10 <= message_count user < supabase.INT4_MAX ->
  faults (env w) = [false; false; false; false; false; true; false] ++ rest ->
  let r := queueService.processMessageDirectly md w in
  fst r = Throw (DeliveryError "send failed")
  /\ outbox (snd r) = outbox w
  /\ exists prompt,
       ai_calls (snd r) = ai_calls w ++ [prompt]
       /\ messages (snd r)
          = messages w
            ++ saved_rows (from md) (messageContent (message md))
                 (ai_reply (env w) prompt) (clock w).
Proof.
  destruct md as [msg frm ty h]. unfold from_controller. open_world w.
  cbn [handlers from message users env faults stripe_active ai_reply outbox
       ai_calls messages clock app].
  intros -> Hu Hflag Hst [Hlo Hhi] ->.
  destruct user as [uid cnt flag]. cbn [is_subscribed message_count] in *. subst flag.
  run_step. rewrite Hst, Hu. run_step. rewrite Hu. run_step.
  replace (supabase.INT4_MAX <? cnt + 1) with false by (symmetry; apply Z.ltb_ge; lia).
  replace (cnt + 1 <? - supabase.INT4_MAX - 1) with false
    by (symmetry; apply Z.ltb_ge; unfold supabase.INT4_MAX in *; lia).
  destruct (cnt + 1 <=? 10) eqn:Hover; [apply Z.leb_le in Hover; lia|].
  run_step.
  split; [reflexivity|]. split; [reflexivity|].
  eexists. split; reflexivity.
Qed.

(** The sixth request of the run, the delivery, is the one that fails. *)
Lemma undelivered_reply_is_saved_witness :
  let md := sample.text_from sample.alice "hi" in
  let w := sample.world_with 10 false false [false; false; false; false; false; true; false] in
  let user := {| user_id := sample.alice; message_count := 10; is_subscribed := false |} in
  let r := queueService.processMessageDirectly md w in
  users w !! from md = Some user
  /\ 10 <= message_count user < supabase.INT4_MAX
  /\ fst r = Throw (DeliveryError "send failed")
  /\ outbox (snd r) = outbox w
  /\ List.length (messages (snd r)) = 2%nat.
Proof.
  intros md w user r.
  assert (Hrow : users w !! from md = Some user) by reflexivity.
  assert (Hcount : 10 <= message_count user < supabase.INT4_MAX)
    by (split; [by apply Z.leb_le | reflexivity]).
  destruct (undelivered_reply_is_saved md w user [] eq_refl Hrow eq_refl eq_refl Hcount eq_refl)
    as (Hthrow & Hout & prompt & _ & Hsaved).
  split; [exact Hrow|]. split; [exact Hcount|]. split; [exact Hthrow|].
  split; [exact Hout|].
  fold r in Hsaved. rewrite Hsaved. reflexivity.
Defined.

(** ** The queue: order and loss *)

Lemma step_keeps_deferred ev s :
  attempted (step ev s) ++ delayedMessages (step ev s)
  = attempted s ++ delayedMessages s ++ deferred [ev] s.
Proof.
  destruct ev as [md e | | i e | i]; cbn [deferred]; rewrite ?app_nil_r.
  - cbn [step].
    assert (Hn : requestCount (set_world (set_env (fun _ => e)) s) = requestCount s)
      by (by destruct s).
    destruct (Z.ltb_spec queueService.RATE_LIMIT_THRESHOLD (requestCount s + 1)) as [Hgt | Hle].
    + rewrite handleMessage_buffered by (rewrite Hn; exact Hgt). by destruct s.
    + rewrite handleMessage_inline by (rewrite Hn; exact Hle).
      destruct s as [n q flag w ds att]. cbn [world set_world].
      destruct (queueService.processMessageDirectly md _) as [[out|error] w'];
        cbn; by rewrite app_nil_r.
  - rewrite window_tick_cases.
    destruct (delayedMessages s) as [| md rest] eqn:Hq, (processingDelayed s);
      cbn [attempted delayedMessages set_requestCount]; rewrite ?Hq, <- ?app_assoc; done.
  - destruct s as [n q flag w ds att]. drain_step.
    destruct (ds !! i) as [[md|]|]; try done.
    destruct (queueService.processMessageDirectly md _) as [[out|error] w']; done.
  - destruct s as [n q flag w ds att]. drain_step.
    destruct (ds !! i) as [[md|]|]; try done.
    destruct q as [| md rest]; drain_step; rewrite <- ?app_assoc; done.
Qed.

(** X15.  No buffered message is lost, duplicated or reordered.  Along
    every execution of the process, the messages handed to the pipeline by
    the drains, followed by the messages still in the buffer, are the
    messages that were there before followed by the messages deferred
    during the execution, in the order of their submission. *)
Theorem buffer_is_first_in_first_out evs s :
  attempted (run evs s) ++ delayedMessages (run evs s)
  = attempted s ++ delayedMessages s ++ deferred evs s.
Proof.
  revert s. induction evs as [| ev evs IH]; intros s.
  - cbn. by rewrite !app_nil_r.
  - change (run (ev :: evs) s) with (run evs (step ev s)).
    rewrite IH, app_assoc, step_keeps_deferred. cbn [deferred].
    rewrite !app_nil_r, <- !app_assoc. done.
Qed.

(** X16.  The buffer gives no precedence over new messages.  A message
    submitted right after a window tick is run through the pipeline at
    once, whatever is waiting in the buffer, and does not enter the
    buffer. *)
Theorem new_message_overtakes_the_buffer job s :
  let s1 := step WindowTick s in
  fst (submit job s1)
  = fst (queueService.processMessageDirectly (fst job) (in_env (snd job) (world s1)))
  /\ delayedMessages (snd (submit job s1)) = delayedMessages s1
  /\ attempted (snd (submit job s1)) = attempted s1.
Proof.
  intros s1.
  assert (Hn : requestCount s1 = 0).
  { subst s1. rewrite window_tick_cases.
    by destruct (delayedMessages s), (processingDelayed s). }
  split; [|split].
  - unfold submit. rewrite handleMessage_inline.
    + destruct s1 as [n q flag w ds att]. cbn [world set_world].
      by destruct (queueService.processMessageDirectly _ _) as [[out|error] w'].
    + assert (requestCount (set_world (in_env (snd job)) s1) = requestCount s1)
        as -> by (by destruct s1).
      rewrite Hn. done.
  - rewrite submit_delayedMessages, Hn. done.
  - unfold submit.
    destruct (handleMessage_drains (fst job) (set_world (in_env (snd job)) s1))
      as (_ & _ & ->).
    by destruct s1.
Qed.

(** ** The Stripe lookup *)

Lemma checkCustomerSubscriptionStatus_returns api customerId querySource w :
  exists b, fst (stripePayment.checkCustomerSubscriptionStatus api customerId querySource w)
            = Return b.
Proof.
  unfold stripePayment.checkCustomerSubscriptionStatus, try_catch.
  match goal with |- context [match ?body w with _ => _ end] =>
    destruct (body w) as [[b|error] w1] end.
  - eauto.
  - unfold bind, logger.error, modify, ret. eauto.
Qed.

Lemma checkStripeSubscription_returns api phoneNumber w :
  exists b, fst (stripePayment.checkStripeSubscription api phoneNumber w) = Return b.
Proof.
  unfold stripePayment.checkStripeSubscription, try_catch at 1.
  match goal with |- context [match ?body w with _ => _ end] =>
    destruct (body w) as [[b|error] w1] end.
  - eauto.
  - unfold bind, logger.error, modify, ret. eauto.
Qed.

(** X17.  Neither function of the payment service ever throws: the
    answer is a boolean whatever Stripe does.  A failure of the first call
    they make is answered with [false] and an error line in the log:
    when listing the subscriptions fails the customer counts as not
    subscribed although the invoices were never looked at, and when the
    first search by phone number fails the user counts as not subscribed
    although the fallback searches were never tried. *)
Theorem payment_checks_never_throw api w :
  (forall customerId querySource,
     (exists b, fst (stripePayment.checkCustomerSubscriptionStatus api customerId querySource w)
                = Return b)
     /\ forall error,
          subscriptions_list api customerId = Throw error ->
          stripePayment.checkCustomerSubscriptionStatus api customerId querySource w
          = (Return false,
             set_logs (fun ls => ls ++ ["Error checking customer " +:+ customerId
                                        +:+ " subscription status: "
                                        +:+ error_message error]) w))
  /\ (forall phoneNumber,
        (exists b, fst (stripePayment.checkStripeSubscription api phoneNumber w) = Return b)
        /\ forall error,
             customers_search api
               ("phone:'" +:+ stripePayment.formattedPhoneNumber phoneNumber +:+ "'")
             = Throw error ->
             stripePayment.checkStripeSubscription api phoneNumber w
             = (Return false,
                set_logs (fun ls => ls ++ ["Error checking Stripe subscription: "
                                           +:+ error_message error]) w)).
Proof.
  split.
  - intros customerId querySource.
    split; [apply checkCustomerSubscriptionStatus_returns|].
    intros error Hfail.
    unfold stripePayment.checkCustomerSubscriptionStatus, try_catch, bind, call.
    rewrite Hfail. reflexivity.
  - intros phoneNumber. split; [apply checkStripeSubscription_returns|].
    intros error Hfail.
    unfold stripePayment.checkStripeSubscription, try_catch at 1.
    cbn [stripePayment.search_by_phone]. unfold bind at 1. unfold bind at 1.
    unfold call at 1. rewrite Hfail. reflexivity.
Qed.

(** One failing subscription listing, with a paid invoice on file. *)
Lemma payment_checks_never_throw_witness :
  let api := {| customers_search := fun _ => Return [];
                customers_retrieve := fun _ => Throw (PostgrestError "no such customer");
                customers_list := Return [];
                subscriptions_list := fun _ => Throw (PostgrestError "timeout");
                paymentIntents_list := fun _ => Return [];
                invoices_list_paid := fun _ => Return [ {| inv_id := "in_1" |} ];
                now_ms := 1700000000000 |} in
  subscriptions_list api "cus_1" = Throw (PostgrestError "timeout")
  /\ fst (stripePayment.checkCustomerSubscriptionStatus api "cus_1" "test" empty_world)
     = Return false.
Proof.
  intros api. split; [reflexivity|].
  rewrite (proj2 (proj1 (payment_checks_never_throw api empty_world) "cus_1" "test")
             (PostgrestError "timeout") eq_refl).
  reflexivity.
Defined.

(** X18.  One paid invoice makes a customer subscribed for good: when the
    three listings succeed and the listing of paid invoices is not empty,
    the answer is [true], whatever the state of the subscriptions
    (cancelled, say) and however old the invoice. *)
Theorem paid_invoice_counts_as_subscription api customerId querySource w
    subscriptions paymentIntents invoice invoices :
  subscriptions_list api customerId = Return subscriptions ->
  paymentIntents_list api customerId = Return paymentIntents ->
  invoices_list_paid api customerId = Return (invoice :: invoices) ->
  stripePayment.checkCustomerSubscriptionStatus api customerId querySource w
  = (Return true, w).
Proof.
  intros Hsubs Hpis Hinv.
  unfold stripePayment.checkCustomerSubscriptionStatus, try_catch, bind, call.
  rewrite Hsubs.
  destruct (List.find _ subscriptions); [reflexivity|].
  rewrite Hpis. destruct (existsb _ paymentIntents); [reflexivity|].
  rewrite Hinv. reflexivity.
Qed.

Lemma paid_invoice_counts_as_subscription_witness :
  let api := {| customers_search := fun _ => Return [];
                customers_retrieve := fun _ => Throw (PostgrestError "no such customer");
                customers_list := Return [];
                subscriptions_list := fun _ =>
                  Return [ {| sub_status := "canceled"; sub_trial_end := None;
                              sub_metadata_phone := None |} ];
                paymentIntents_list := fun _ => Return [];
                invoices_list_paid := fun _ => Return [ {| inv_id := "in_1" |} ];
                now_ms := 1700000000000 |} in
  stripePayment.checkCustomerSubscriptionStatus api "cus_1" "test" empty_world
  = (Return true, empty_world).
Proof.
  intros api.
  exact (paid_invoice_counts_as_subscription api "cus_1" "test" empty_world
           _ _ _ _ eq_refl eq_refl eq_refl).
Defined.




Lemma existsb_pointwise {A} (f g : A -> bool) (l : list A) :
  (forall x, f x = g x) -> existsb f l = existsb g l.
Proof. intros Hfg. induction l as [| x l IH]; cbn; [done | by rewrite Hfg, IH]. Qed.

Lemma prefix_empty (s : string) : String.prefix EmptyString s = true.
Proof. by destruct s. Qed.

Lemma prefix_cons_same (ch : ascii) (a b : string) :
  String.prefix (String ch a) (String ch b) = String.prefix a b.
Proof. cbn [String.prefix]. by destruct (Ascii.ascii_dec ch ch). Qed.

Lemma phone_matches_either (formatted without p : string) :
  stripePayment.phone_matches formatted without formatted p
  = stripePayment.phone_matches formatted without without p.
Proof.
  unfold stripePayment.phone_matches.
  by destruct (String.eqb p formatted), (String.eqb p without).
Qed.

Lemma scan_customers_either api (formatted without : string) customers :
  stripePayment.scan_customers api formatted without formatted customers
  = stripePayment.scan_customers api formatted without without customers.
Proof.
  induction customers as [| customer rest IH]; [done|].
  cbn [stripePayment.scan_customers].
  rewrite (existsb_pointwise _ _ _ (phone_matches_either formatted without)).
  rewrite IH.
  destruct (cus_subscriptions customer) as [[| sub subs]|]; try done.
  rewrite (existsb_pointwise
             (fun sub => match sub_metadata_phone sub with
                         | Some p => stripePayment.phone_matches formatted without formatted p
                         | None => false
                         end)
             (fun sub => match sub_metadata_phone sub with
                         | Some p => stripePayment.phone_matches formatted without without p
                         | None => false
                         end)); [done|].
  intros s. destruct (sub_metadata_phone s); [apply phone_matches_either | done].
Qed.

(** X20.  The answer does not depend on whether the number is given
    with or without the leading plus sign, for a number that is not a
    Stripe customer id. *)
Theorem checkStripeSubscription_ignores_plus api number w :
  stripePayment.startsWith number "+" = false ->
  stripePayment.startsWith number "cus_" = false ->
  stripePayment.checkStripeSubscription api ("+" +:+ number) w
  = stripePayment.checkStripeSubscription api number w.
Proof.
  intros Hplus Hcus.
  assert (Hf1 : stripePayment.formattedPhoneNumber ("+" +:+ number) = "+" +:+ number).
  { unfold stripePayment.formattedPhoneNumber, stripePayment.startsWith.
    by rewrite append_cons, append_empty, prefix_cons_same, prefix_empty. }
  assert (Hf2 : stripePayment.formattedPhoneNumber number = "+" +:+ number).
  { unfold stripePayment.formattedPhoneNumber. by rewrite Hplus. }
  assert (Hw1 : stripePayment.withoutPlus ("+" +:+ number) = number).
  { unfold stripePayment.withoutPlus, stripePayment.startsWith.
    rewrite append_cons, append_empty.
    rewrite prefix_cons_same, prefix_empty.
    cbn [String.length String.substring Nat.sub].
    rewrite Nat.sub_0_r. apply substring_all. }
  assert (Hw2 : stripePayment.withoutPlus number = number).
  { unfold stripePayment.withoutPlus. by rewrite Hplus. }
  assert (Hc1 : stripePayment.startsWith ("+" +:+ number) "cus_" = false).
  { unfold stripePayment.startsWith. rewrite append_cons, append_empty.
    cbn [String.prefix]. by destruct (Ascii.ascii_dec _ _). }
  unfold stripePayment.checkStripeSubscription.
  rewrite Hf1, Hf2, Hw1, Hw2, Hc1, Hcus.
  unfold try_catch, bind, ret.
  destruct (stripePayment.search_by_phone api _ w) as [[[]|] w1]; try reflexivity.
  unfold call.
  destruct (customers_list api) as [customers|]; [|reflexivity].
  by rewrite scan_customers_either.
Qed.

(** The number of [alice] with and without the plus sign. *)
Lemma checkStripeSubscription_ignores_plus_witness :
  let api := {| customers_search := fun _ => Return [];
                customers_retrieve := fun _ => Throw (PostgrestError "no such customer");
                customers_list := Return [];
                subscriptions_list := fun _ => Return [];
                paymentIntents_list := fun _ => Return [];
                invoices_list_paid := fun _ => Return [];
                now_ms := 1700000000000 |} in
  stripePayment.startsWith sample.alice "+" = false
  /\ stripePayment.startsWith sample.alice "cus_" = false
  /\ stripePayment.checkStripeSubscription api ("+" +:+ sample.alice) empty_world
     = stripePayment.checkStripeSubscription api sample.alice empty_world.
Proof.
  intros api.
  split; [reflexivity|]. split; [reflexivity|].
  exact (checkStripeSubscription_ignores_plus api sample.alice empty_world eq_refl eq_refl).
Defined.

(** ** Audio messages *)

(** The pipeline reads the type of a message only to tell an image from
    everything else. *)
Lemma pipeline_reads_type_for_image_only md1 md2 :
  message md1 = message md2 ->
  from md1 = from md2 ->
  handlers md1 = handlers md2 ->
  String.eqb (messageType md1) "image" = String.eqb (messageType md2) "image" ->
  queueService.processMessageDirectly md1 = queueService.processMessageDirectly md2.
Proof.
  destruct md1 as [m1 f1 t1 h1], md2 as [m2 f2 t2 h2].
  cbn [message from handlers messageType]. intros -> -> -> Hty.
  unfold queueService.processMessageDirectly.
  cbn [message from handlers messageType]. by rewrite Hty.
Qed.

(** X21.  A voice message that is transcribed and processed at once is
    handled exactly as a text message with the transcript as its body would
    be: the same outcome, and the same state of the process and of the
    outside world afterwards. *)
Theorem audio_is_handled_as_its_transcript message s rest :
  blocked_country (env (world s)) (msg_from message) = false ->
  msg_type message = "audio" ->
  faults (env (world s)) = false :: rest ->
  requestCount s < queueService.RATE_LIMIT_THRESHOLD ->
  let as_text :=
    {| msg_from := msg_from message; msg_type := "text";
       text_body := transcript_of (env (world s)) (audio_id message);
       audio_id := audio_id message; image_id := image_id message;
       image_caption := image_caption message |} in
  messageController.handleMessage (Some message) s
  = messageController.handleMessage (Some as_text)
      (set_world (set_env (set_faults rest)) s).
Proof.
  open_sys s. destruct message as [frm ty body aid iid cap].
  cbn [world env blocked_country faults msg_from msg_type requestCount
       audio_id image_id image_caption transcript_of].
  intros Hblocked -> -> Hn. cbv zeta.
  ctl_step. rewrite Hblocked.
  change ("audio" =? "text")%string with false.
  change ("audio" =? "audio")%string with true.
  change ("text" =? "text")%string with true.
  ctl_step.
  rewrite !handleMessage_inline by (cbn [requestCount]; lia).
  cbn [world].
  rewrite (pipeline_reads_type_for_image_only
             (Build_MessageData _ frm "audio" messageController.handlers)
             (Build_MessageData {| messageContent := tr aid;
                                   messageForAI := [TextPart (tr aid)] |}
                frm "text" messageController.handlers)) by reflexivity.
  reflexivity.
Qed.

(** A voice message of [alice], transcribed as [hello]. *)
Lemma audio_is_handled_as_its_transcript_witness :
  let message := {| msg_from := sample.alice; msg_type := "audio"; text_body := EmptyString;
                    audio_id := "aud-1"; image_id := EmptyString;
                    image_caption := None |} in
  let e := {| faults := [false]; stripe_active := fun _ => false;
              ai_reply := fun _ => "reply"; transcript_of := fun _ => "hello";
              media_url_of := fun _ => EmptyString; blocked_country := fun _ => false |} in
  let s := sample.sys_with (set_env (fun _ => e) (sample.world_with 10 false false [])) in
  requestCount s < queueService.RATE_LIMIT_THRESHOLD
  /\ messageController.handleMessage (Some message) s
     = messageController.handleMessage
         (Some {| msg_from := sample.alice; msg_type := "text"; text_body := "hello";
                  audio_id := "aud-1"; image_id := EmptyString; image_caption := None |})
         (set_world (set_env (set_faults [])) s).
Proof.
  intros message e s.
  assert (Hn : requestCount s < queueService.RATE_LIMIT_THRESHOLD) by reflexivity.
  split; [exact Hn|].
  exact (audio_is_handled_as_its_transcript message s [] eq_refl eq_refl eq_refl Hn).
Defined.

(** ** The first message of a sender *)

(** X22.  The first message of a sender who has no row is not answered.
    [findOrCreateUser] inserts the row and returns [null], the pipeline
    reads [user.is_subscribed] and throws a [TypeError]: the row is stored
    with a count of 0, nothing is sent, the Responder is not called and no
    turn is saved. *)
Theorem first_message_of_new_sender_fails md w :
  from_controller md ->
  users w !! from md = None ->
  fails_at 0 w = false ->
  fails_at 1 w = false ->
  let r := queueService.processMessageDirectly md w in
  fst r = Throw (TypeError "Cannot read properties of null (reading 'is_subscribed')")
  /\ users (snd r)
     = <[from md := {| user_id := from md; message_count := 0; is_subscribed := false |}]>
         (users w)
  /\ outbox (snd r) = outbox w
  /\ ai_calls (snd r) = ai_calls w
  /\ messages (snd r) = messages w
  /\ logs (snd r)
     = logs w ++ ["Error in direct processing: Cannot read properties of null (reading 'is_subscribed')"].
Proof.
  destruct md as [msg frm ty h]. unfold from_controller, fails_at.
  cbn [handlers from]. intros ->. open_world w.
  cbn [users env faults outbox ai_calls messages logs]. intros Hnone H0 H1.
  destruct fs as [| [] [| [] fs]]; try discriminate;
    run_step; rewrite Hnone; run_step; rewrite ?Hnone; run_step; done.
Qed.

(** A sender without a row writes to a process in which only [alice] has
    one. *)
Lemma first_message_of_new_sender_fails_witness :
  let md := sample.text_from "31600000002" "hi" in
  let w := sample.world_with 3 false false [] in
  let r := queueService.processMessageDirectly md w in
  users w !! from md = None
  /\ fst r = Throw (TypeError "Cannot read properties of null (reading 'is_subscribed')")
  /\ outbox (snd r) = outbox w.
Proof.
  intros md w r.
  destruct (first_message_of_new_sender_fails md w eq_refl eq_refl eq_refl eq_refl)
    as (Hr & _ & Hout & _).
  split; [reflexivity|]. split; [exact Hr | exact Hout].
Defined.
